(** * asconfig: the ALSA device scanner and the .asoundrc generator

    A shallow embedding of [asconfig.c]: the capability scan [scancards],
    the block emitters [add_plug], [add_dmix], ... and the generator
    [print_asoundrc], followed by the properties proved about them.

    Conventions.
    - [guint] values are only stored, compared and printed by the program,
      never computed with, so they are modelled as [N]; [gint] values that
      may be negative (combo box indices, dialog responses, error codes)
      are modelled as [Z].
    - A [gchar *] that may be [NULL] is an [option string].
    - Every write to the output stream, an [fprintf] of [print_asoundrc]
      or a call of one of the [add_*] emitters, is a value of type
      [block]; the bytes it writes are given by [render]. *)

From Stdlib Require Import String Ascii ZArith NArith List Bool Lia DecimalString.
Import ListNotations.
Local Open Scope string_scope.

Definition guint := N.
Definition gint := Z.

(** ** Configuration macros (asconfig.c, lines 24-52) *)

Definition ASCONFIG_DEFAULT_RATE : guint := 48000%N.
Definition ASCONFIG_DEFAULT_FORMAT_NAME : string := "S16_LE".
Definition ASCONFIG_DEFAULT_CHANNELS : guint := 2%N.
Definition ASCONFIG_STREAM_INPUT_FORMAT : string := "raw".
Definition ASCONFIG_STREAM_COMMAND : string :=
  "| lame -r --bitwidth %b -s %r -m j -q6 --cbr -b 192 - - | /usr/local/bin/ezstream -c /path/to/config".

(** The combo box tables (lines 103-105).  [resamplers] is indexed with the
    active item of the resampler combo box; the table ends with a [NULL]
    entry, which is what an index outside 0..2 is modelled to read. *)
Definition playbackInterfaceTypes : list string := ["hw"; "plug"; "dmix"].
Definition captureInterfaceTypes : list string := ["hw"; "plug"; "dsnoop"].

Definition resamplers (i : gint) : option string :=
  if (i =? 0)%Z then Some "speexrate"
  else if (i =? 1)%Z then Some "speexrate_medium"
  else if (i =? 2)%Z then Some "speexrate_best"
  else None.

(** ** Constants of the C library, GTK and ALSA used by the program *)

Definition EBUSY : gint := 16%Z.
Definition GTK_RESPONSE_NONE : gint := (-1)%Z.
Definition GTK_RESPONSE_DELETE_EVENT : gint := (-4)%Z.
Definition GTK_RESPONSE_CANCEL : gint := (-6)%Z.
Definition GTK_RESPONSE_YES : gint := (-8)%Z.
Definition GTK_RESPONSE_NO : gint := (-9)%Z.

Inductive GtkMessageType : Set :=
| GTK_MESSAGE_INFO
| GTK_MESSAGE_WARNING
| GTK_MESSAGE_QUESTION
| GTK_MESSAGE_ERROR.

Inductive snd_pcm_stream_t : Set :=
| SND_PCM_STREAM_PLAYBACK
| SND_PCM_STREAM_CAPTURE.

(** ** printf conversions *)

Module Printf.

Definition nl : string := String "010"%char EmptyString.
Definition dq : string := String "034"%char EmptyString.

(** [%u] and, for the non-negative indices it is used with, [%d]. *)
Definition u (n : guint) : string := NilZero.string_of_uint (N.to_uint n).

(** [%s]; glibc prints a [NULL] argument as the text below. *)
Definition s (x : option string) : string :=
  match x with
  | Some t => t
  | None => "(null)"
  end.

(** [snprintf(buf, size, ...)] keeps at most [size - 1] characters. *)
Definition snprintf (size : nat) (text : string) : string :=
  substring 0 (size - 1) text.

(** The text of consecutive source lines, each ending in a newline. *)
Fixpoint lines (l : list string) : string :=
  match l with
  | [] => EmptyString
  | x :: rest => x ++ nl ++ lines rest
  end.

End Printf.

(** ** The device list (one row of the GtkListStore, lines 74-92, 781-797)

    String columns are [NULL] and unsigned columns are 0 until they are
    set. *)

Record row : Set := mk_row {
  COLUMN_IN_USE : option string;
  COLUMN_CARD : guint;
  COLUMN_CARD_ID : option string;
  COLUMN_CARD_NAME : option string;
  COLUMN_DEVICE : guint;
  COLUMN_DEVICE_ID : option string;
  COLUMN_DEVICE_NAME : option string;
  COLUMN_DEVICE_MIN_CHANNELS : guint;
  COLUMN_DEVICE_MAX_CHANNELS : guint;
  COLUMN_DEVICE_MIN_RATE : guint;
  COLUMN_DEVICE_MAX_RATE : guint;
  COLUMN_DEVICE_FORMAT : option string;
  COLUMN_DEVICE_ALSA_HW : option string;
  COLUMN_DEFAULT_RATE : guint;
  COLUMN_DEFAULT_FORMAT : option string;
  COLUMN_DEFAULT_CHANNELS : guint
}.

Definition GtkListStore := list row.

(** ** The sound hardware, as the ALSA calls of [scancards] answer

    Each field is the answer of the call it is named after, for the stream
    direction being scanned: an error code (0 on success) or the value
    returned.  The three [set_*] calls are made once each, in the order
    rate, format, channels, on the same parameter space. *)

Definition snd_pcm_format_t := nat.
Definition SND_PCM_FORMAT_S16_LE : snd_pcm_format_t := 2%nat.
Definition ASCONFIG_DEFAULT_FORMAT : snd_pcm_format_t := SND_PCM_FORMAT_S16_LE.

Record snd_pcm_hw_params_t : Set := mk_pars {
  snd_pcm_hw_params_any : gint;
  snd_pcm_hw_params_get_channels_min : guint;
  snd_pcm_hw_params_get_channels_max : guint;
  snd_pcm_hw_params_get_rate_min : guint;
  snd_pcm_hw_params_get_rate_max : guint;
  snd_pcm_format_mask_test : snd_pcm_format_t -> bool;
  (* the error code, and the rate written back through the pointer *)
  snd_pcm_hw_params_set_rate_near : guint -> gint * guint;
  snd_pcm_hw_params_set_format : snd_pcm_format_t -> gint;
  snd_pcm_hw_params_set_channels : guint -> gint
}.

Record snd_pcm_t : Set := mk_pcm {
  pcm_device : guint;
  snd_ctl_pcm_info : gint;
  snd_pcm_info_get_id : string;
  snd_pcm_info_get_name : string;
  snd_pcm_open : gint;
  pars : snd_pcm_hw_params_t
}.

Record snd_ctl_t : Set := mk_ctl {
  card_number : guint;
  snd_ctl_open : gint;
  snd_ctl_card_info : gint;
  snd_ctl_card_info_get_id : string;
  snd_ctl_card_info_get_name : string;
  snd_ctl_pcm_next_device : list snd_pcm_t
}.

(** Updates of the row under the iterator ([gtk_list_store_set]). *)

Definition set_in_use (r : row) (flag : option string) : row :=
  mk_row flag
    (COLUMN_CARD r) (COLUMN_CARD_ID r) (COLUMN_CARD_NAME r)
    (COLUMN_DEVICE r) (COLUMN_DEVICE_ID r) (COLUMN_DEVICE_NAME r)
    (COLUMN_DEVICE_MIN_CHANNELS r) (COLUMN_DEVICE_MAX_CHANNELS r)
    (COLUMN_DEVICE_MIN_RATE r) (COLUMN_DEVICE_MAX_RATE r)
    (COLUMN_DEVICE_FORMAT r) (COLUMN_DEVICE_ALSA_HW r)
    (COLUMN_DEFAULT_RATE r) (COLUMN_DEFAULT_FORMAT r)
    (COLUMN_DEFAULT_CHANNELS r).

Definition set_parameters (r : row) (min_ch max_ch min_sr max_sr : guint)
    (sampleFormatsCSV : string) (defaultRate : guint)
    (defaultFormat : string) (defaultChannels : guint) : row :=
  mk_row None
    (COLUMN_CARD r) (COLUMN_CARD_ID r) (COLUMN_CARD_NAME r)
    (COLUMN_DEVICE r) (COLUMN_DEVICE_ID r) (COLUMN_DEVICE_NAME r)
    min_ch max_ch min_sr max_sr
    (Some sampleFormatsCSV) (COLUMN_DEVICE_ALSA_HW r)
    defaultRate (Some defaultFormat) defaultChannels.

Section Scan.

(** The format table of the ALSA library. *)
Variable SND_PCM_FORMAT_LAST : nat.
Variable snd_pcm_format_name : snd_pcm_format_t -> string.

(** Lines 110-123: the names of the formats in the mask, by increasing
    format number. *)
Definition getSampleFormats (fmask : snd_pcm_format_t -> bool) : list string :=
  map snd_pcm_format_name (filter fmask (seq 0 (S SND_PCM_FORMAT_LAST))).

(** Lines 176-254: the body of the device loop.  It adds no row when the
    device information cannot be read, and one row otherwise. *)
Definition scan_device (cardInfo : snd_ctl_t) (d : snd_pcm_t) : GtkListStore :=
  let hwdev :=
    Printf.snprintf 64
      ("hw:" ++ Printf.u (card_number cardInfo) ++ "," ++ Printf.u (pcm_device d)) in
  if negb (snd_ctl_pcm_info d =? 0)%Z then []
  else
    let inserted :=
      mk_row None
        (card_number cardInfo)
        (Some (snd_ctl_card_info_get_id cardInfo))
        (Some (snd_ctl_card_info_get_name cardInfo))
        (pcm_device d)
        (Some (snd_pcm_info_get_id d))
        (Some (snd_pcm_info_get_name d))
        0%N 0%N 0%N 0%N None (Some hwdev) 0%N None 0%N in
    if negb (snd_pcm_open d =? 0)%Z then
      if (snd_pcm_open d =? - EBUSY)%Z
      then [set_in_use inserted (Some "*")]
      else [set_in_use inserted (Some "E")]
    else
      let p := pars d in
      if (snd_pcm_hw_params_any p =? 0)%Z then
        let min_ch := snd_pcm_hw_params_get_channels_min p in
        let max_ch := snd_pcm_hw_params_get_channels_max p in
        let min_sr := snd_pcm_hw_params_get_rate_min p in
        let max_sr := snd_pcm_hw_params_get_rate_max p in
        let sample_formats := getSampleFormats (snd_pcm_format_mask_test p) in
        let sampleFormatsCSV := String.concat ", " sample_formats in
        let defaultRate :=
          let '(err, near) :=
            snd_pcm_hw_params_set_rate_near p ASCONFIG_DEFAULT_RATE in
          if negb (err =? 0)%Z then min_sr else near in
        let defaultFormat :=
          if (snd_pcm_hw_params_set_format p ASCONFIG_DEFAULT_FORMAT =? 0)%Z
          then Printf.snprintf 64 ASCONFIG_DEFAULT_FORMAT_NAME
          else Printf.snprintf 64 (Printf.s (hd_error sample_formats)) in
        let defaultChannels :=
          if (snd_pcm_hw_params_set_channels p ASCONFIG_DEFAULT_CHANNELS =? 0)%Z
          then ASCONFIG_DEFAULT_CHANNELS
          else min_ch in
        [set_parameters inserted min_ch max_ch min_sr max_sr
           sampleFormatsCSV defaultRate defaultFormat defaultChannels]
      else [set_in_use inserted (Some "E")].

(** Lines 157-258: the body of the card loop; a card whose control
    interface cannot be opened or read is skipped. *)
Definition scan_card (cardInfo : snd_ctl_t) : GtkListStore :=
  if negb (snd_ctl_open cardInfo =? 0)%Z then []
  else if negb (snd_ctl_card_info cardInfo =? 0)%Z then []
  else flat_map (scan_device cardInfo) (snd_ctl_pcm_next_device cardInfo).

(** Lines 134-260.  [snd_card_next] enumerates the cards of the system
    for the stream direction asked for; the rows found are appended to
    the store. *)
Definition scancards (snd_card_next : snd_pcm_stream_t -> list snd_ctl_t)
    (stream : snd_pcm_stream_t) (store : GtkListStore) : GtkListStore :=
  (store ++ flat_map scan_card (snd_card_next stream))%list.

(** Lines 612-620: both stores are cleared and scanned again. *)
Definition refresh_clicked (snd_card_next : snd_pcm_stream_t -> list snd_ctl_t)
    : GtkListStore * GtkListStore :=
  (scancards snd_card_next SND_PCM_STREAM_PLAYBACK [],
   scancards snd_card_next SND_PCM_STREAM_CAPTURE []).

End Scan.

(** ** The blocks written to .asoundrc

    One constructor for each [fprintf] of [print_asoundrc] and for each of
    the [add_*] emitters it calls, with the arguments of the call. *)

Inductive block : Set :=
| file_header
| capture_device (pcm : string) (card dev : guint)
| comment (text : string)
| playback_device (pcm : string) (card dev : guint)
| force_parameters (pcm format : string) (channels rate : guint)
| rate_converter (name : option string)
| mixer_controls (card : guint)
| add_dsnoop (pcmName slavePCM defaultFormat : string)
    (defaultChannels defaultRate : guint)
| add_dmixStream (pcmName dmixPCM streamPCM : string)
| add_streamOut (pcmName streamFormat streamSlavePCM streamCommand : string)
| add_plug (pcmName slavePCM : string)
| add_dmix (pcmName slavePCM defaultFormat : string)
    (defaultChannels defaultRate : guint)
| add_default (playbackPCM : string) (capturePCM : option string).

(** The comments that open each branch of the two interface switches. *)

Definition capture_hw_comment : string :=
  Printf.lines
    [ "# Direct hardware access selected - no software conversions.";
      "# Only one application can use the capture device at a time.";
      "# Capture sample rates / formats / channels *MUST* match";
      "# the cards native ranges, otherwise capturing will fail." ].

Definition capture_plug_comment : string :=
  Printf.lines
    [ "# Access hardware via plug: The capture format (bit depth)";
      "# may be changed and / or resampling may take place in order";
      "# to match the hardware requirements. Only one application ";
      "# can use the capture device at a time." ].

Definition capture_dsnoop_comment : string :=
  Printf.lines
    [ "# Allow multiple applications to capture at once. Output";
      "# streams may be converted to a common format (bit depth)";
      "# and sample rate using plug (dsnoop doesn't do conversions)." ].

Definition playback_hw_comment : string :=
  Printf.lines
    [ "# Direct hardware access selected - no software conversions.";
      "# Only one application can use the playback device at a time.";
      "# Playback sample rates / formats / channels *MUST* match";
      "# the cards native ranges, otherwise playback will fail." ].

Definition playback_plug_comment : string :=
  Printf.lines
    [ "# Access hardware via plug: The playback format (bit depth)";
      "# may be changed and / or resampling may take place in order";
      "# to match the hardware requirements. Only one application ";
      "# can use the playback device at a time." ].

Definition playback_dmix_comment : string :=
  Printf.lines
    [ "# Allow playback from multiple applications at once. Input";
      "# streams may be converted to a common format (bit depth)";
      "# and sample rate using plug (dmix doesn't do conversions)." ].

(** The bytes each block writes (lines 263-355, 400, 440-445, 480-506). *)

Definition render (b : block) : string :=
  let q := Printf.dq in
  match b with
  | file_header =>
      Printf.lines [ "# User asoundrc file written by asconfig" ]
  | capture_device pcm card dev =>
      Printf.lines
        [ "# Selected capture device";
          "pcm.!" ++ pcm ++ " {";
          "   type hw";
          "   card " ++ Printf.u card;
          "   device " ++ Printf.u dev;
          "}" ]
  | comment text => text
  | playback_device pcm card dev =>
      Printf.lines
        [ "# Selected playback device";
          "pcm.!" ++ pcm ++ " {";
          "   type hw";
          "   card " ++ Printf.u card;
          "   device " ++ Printf.u dev;
          "}" ]
  | force_parameters pcm format channels rate =>
      Printf.lines
        [ "# Force parameters for playback on single rate cards";
          "# Required for some cards, e.g bytcrrt5640";
          "pcm.+" ++ pcm ++ " {";
          "   format " ++ format;
          "   channels " ++ Printf.u channels;
          "   rate " ++ Printf.u rate;
          "}" ]
  | rate_converter name =>
      Printf.lines
        [ "# Default rate converter for plug and dmix";
          "# Make sure package alsa-plugins is installed to use";
          "# higher quality speexrate_medium resampling.";
          "defaults.pcm.rate_converter " ++ q ++ Printf.s name ++ q ]
  | mixer_controls card =>
      Printf.lines
        [ "# Selected card mixer controls";
          "ctl.!default {";
          "   type hw";
          "   card " ++ Printf.u card;
          "}" ]
  | add_dsnoop pcmName slavePCM defaultFormat defaultChannels defaultRate =>
      Printf.lines
        [ "# Allow capture by multiple applications.";
          "pcm.!" ++ pcmName ++ " {";
          "   type dsnoop";
          "   ipc_key 17022021";
          "   ipc_key_add_uid yes";
          "   slave {";
          "      pcm " ++ q ++ slavePCM ++ q;
          "      period_size 1024";
          "      buffer_size 4096";
          "      format " ++ defaultFormat;
          "      rate " ++ Printf.u defaultRate;
          "      channels " ++ Printf.u defaultChannels;
          "      periods 0";
          "      period_time 0";
          "   }";
          "   bindings {";
          "      0 0";
          "      1 1";
          "   }";
          "}" ]
  | add_dmixStream pcmName dmixPCM streamPCM =>
      Printf.lines
        [ "# NOTE: dmix can only output to a hardware device.";
          "# To use the stream pcm, the program whose output ";
          "# is to be streamed must be told to use the " ++ streamPCM ++ " pcm";
          "# e.g.";
          "#    mplayer -ao alsa:device=" ++ streamPCM;
          "#    chromium --alsa-output-device='" ++ streamPCM ++ "'";
          "#    AUDIODEV=" ++ streamPCM ++ " ffplay" ]
      ++ Printf.lines
        [ "# Local volume control for stream input to dmix.";
          "pcm.!" ++ pcmName ++ " {";
          "   type softvol";
          "   slave {";
          "      pcm " ++ dmixPCM;
          "   }";
          "   control {";
          "      name Stream";
          "      card 0";
          "   }";
          "}" ]
  | add_streamOut pcmName streamFormat streamSlavePCM streamCommand =>
      Printf.lines
        [ "# Stream output.";
          "pcm.!" ++ pcmName ++ " {";
          "   type file";
          "   format " ++ q ++ streamFormat ++ q;
          "   slave {";
          "      pcm " ++ streamSlavePCM;
          "   }";
          "   file " ++ q ++ streamCommand ++ q;
          "}" ]
  | add_plug pcmName slavePCM =>
      Printf.lines
        [ "# Convert formats (bit depth) and sample rates.";
          "pcm.!" ++ pcmName ++ " {";
          "   type plug";
          "   slave {";
          "      pcm " ++ slavePCM;
          "   }";
          "}" ]
  | add_dmix pcmName slavePCM defaultFormat defaultChannels defaultRate =>
      Printf.lines
        [ "# Mix streams from several sources.";
          "pcm.!" ++ pcmName ++ " {";
          "   type dmix";
          "   ipc_key 16022021";
          "   ipc_key_add_uid yes";
          "   slave {";
          "      pcm " ++ slavePCM;
          "      format " ++ defaultFormat;
          "      channels " ++ Printf.u defaultChannels;
          "      rate " ++ Printf.u defaultRate;
          "   }";
          "}" ]
  | add_default playbackPCM None =>
      Printf.lines [ "pcm.!default pcm." ++ playbackPCM ]
  | add_default playbackPCM (Some capturePCM) =>
      Printf.lines
        [ "pcm.!default {";
          "   type asym";
          "   playback.pcm " ++ q ++ playbackPCM ++ q;
          "   capture.pcm " ++ q ++ capturePCM ++ q;
          "}" ]
  end.

(** The stage a block defines ([pcm.!NAME]); the override [pcm.+NAME], the
    declarations and the comments define none. *)
Definition stage_name (b : block) : option string :=
  match b with
  | capture_device pcm _ _ => Some pcm
  | playback_device pcm _ _ => Some pcm
  | add_dsnoop pcmName _ _ _ _ => Some pcmName
  | add_dmixStream pcmName _ _ => Some pcmName
  | add_streamOut pcmName _ _ _ => Some pcmName
  | add_plug pcmName _ => Some pcmName
  | add_dmix pcmName _ _ _ _ => Some pcmName
  | add_default _ _ => Some "default"
  | file_header | comment _ | force_parameters _ _ _ _
  | rate_converter _ | mixer_controls _ => None
  end.

(** The stage named in the block's [slave { pcm ... }] field. *)
Definition slave_pcm (b : block) : option string :=
  match b with
  | add_dsnoop _ slavePCM _ _ _ => Some slavePCM
  | add_dmixStream _ dmixPCM _ => Some dmixPCM
  | add_streamOut _ _ streamSlavePCM _ => Some streamSlavePCM
  | add_plug _ slavePCM => Some slavePCM
  | add_dmix _ slavePCM _ _ _ => Some slavePCM
  | _ => None
  end.

(** ** The user's choices and the world around one run *)

(** The selected row of each tree view, if any. *)
Record ASCONFIG_DEVICE_VIEW : Set := mk_view {
  playbackTreeview : option row;
  captureTreeview : option row
}.

(** The state of the five controls: the active index of each combo box
    (-1 when nothing is active) and the two toggles. *)
Record ASCONFIG_CONTROLS : Set := mk_controls {
  playbackInterface : gint;
  captureInterface : gint;
  resampler : gint;
  streamSwitch : bool;
  streamDefault : bool
}.

(** The content of ~/.asoundrc if the file exists, what the overwrite
    dialog returns if it is run, and whether [fopen] succeeds. *)
Record world : Set := mk_world {
  asoundrc : option string;
  gtk_dialog_run : gint;
  fopen_ok : bool
}.

(** What one run does, in order. *)
Inductive event : Set :=
| show_msgbox (msg title : string) (type : GtkMessageType)
| g_file_test (exists_ : bool)
| show_actionbox (msg title : string) (response_id : gint)
| fopen (ok : bool)
| fprintf (b : block)
| fclose
| g_warning (msg : string).

(** The blocks a run writes, in the order written. *)
Fixpoint written (t : list event) : list block :=
  match t with
  | [] => []
  | fprintf b :: rest => b :: written rest
  | _ :: rest => written rest
  end.

(** The file after a run: a successful [fopen] in mode w truncates it, each
    [fprintf] appends to it, nothing else touches it. *)
Fixpoint file_after (t : list event) (file : option string) : option string :=
  match t with
  | [] => file
  | fopen true :: rest => file_after rest (Some EmptyString)
  | fprintf b :: rest =>
      file_after rest
        (match file with Some text => Some (text ++ render b) | None => None end)
  | _ :: rest => file_after rest file
  end.

Definition opens_file (e : event) : bool :=
  match e with
  | fopen _ => true
  | _ => false
  end.

(** ** print_asoundrc (lines 357-566) *)

Definition no_selection_msg : string :=
  "No selected playback device: please select a playback device from the list: not writing asoundrc!".
Definition in_use_msg : string :=
  "The selected playback device is currently in use (blocked): not writing asoundrc!".
Definition overwrite_msg : string :=
  "User alsa config file <i>.asoundrc</i> exists. <b>Overwrite?</b>".
Definition fopen_error_msg : string := "Error opening .asoundrc for writing".
Definition unknown_interface_msg : string :=
  "print_asoundrc(): Unknown interface type".

(** Lines 415-417 and 434-436: a negotiated default that is undefined in
    the row falls back to the hard coded default. *)
Definition defaultRate_of (r : row) : guint :=
  if (COLUMN_DEFAULT_RATE r =? 0)%N then ASCONFIG_DEFAULT_RATE
  else COLUMN_DEFAULT_RATE r.

Definition defaultFormat_of (r : row) : string :=
  match COLUMN_DEFAULT_FORMAT r with
  | None => ASCONFIG_DEFAULT_FORMAT_NAME
  | Some f => f
  end.

Definition defaultChannels_of (r : row) : guint :=
  if (COLUMN_DEFAULT_CHANNELS r =? 0)%N then ASCONFIG_DEFAULT_CHANNELS
  else COLUMN_DEFAULT_CHANNELS r.

(** Lines 426-476: the capture device, if one is selected, and the capture
    interface switch.  Without a selection [captureInterfaceType] keeps its
    initial -1 and [defaultCapturePCM] stays [NULL], so the switch takes its
    empty default branch; with one, the switch is on the active index of
    the capture combo box.  The result is the final [defaultCapturePCM]
    and the blocks written. *)
Definition capture_setup (capture : option row) (c : ASCONFIG_CONTROLS)
    : option string * list event :=
  match capture with
  | None => (None, [])
  | Some q =>
      let captureCard := COLUMN_CARD q in
      let captureDev := COLUMN_DEVICE q in
      let captureRate := defaultRate_of q in
      let captureFormat := defaultFormat_of q in
      let captureChannels := defaultChannels_of q in
      let defaultCapturePCM := "capture" in
      let captureInterfaceType := captureInterface c in
      let selected :=
        [fprintf (capture_device defaultCapturePCM captureCard captureDev)] in
      if (captureInterfaceType =? 0)%Z then
        (Some defaultCapturePCM,
         selected ++ [fprintf (comment capture_hw_comment)])%list
      else if (captureInterfaceType =? 1)%Z then
        (Some "matchCapture",
         selected ++
         [fprintf (comment capture_plug_comment);
          fprintf (add_plug "matchCapture" defaultCapturePCM)])%list
      else if (captureInterfaceType =? 2)%Z then
        (Some "matchCapture",
         selected ++
         [fprintf (comment capture_dsnoop_comment);
          fprintf (add_plug "matchCapture" "snoopCapture");
          fprintf (add_dsnoop "snoopCapture" defaultCapturePCM
                     captureFormat captureChannels captureRate)])%list
      else (Some defaultCapturePCM, selected)
  end.

(** Lines 479-506, the common setup: the playback device, the forced
    parameters of a single rate card, the rate converter and the mixer
    controls. *)
Definition common_setup (p : row) (c : ASCONFIG_CONTROLS) : list event :=
  let card := COLUMN_CARD p in
  let dev := COLUMN_DEVICE p in
  let min_sr := COLUMN_DEVICE_MIN_RATE p in
  let max_sr := COLUMN_DEVICE_MAX_RATE p in
  let defaultPlaybackPCM := "playback" in
  ([fprintf (playback_device defaultPlaybackPCM card dev)]
   ++ (if (0 <? min_sr)%N && (min_sr =? max_sr)%N
       then [fprintf (force_parameters defaultPlaybackPCM (defaultFormat_of p)
                        (defaultChannels_of p) (defaultRate_of p))]
       else [])
   ++ [fprintf (rate_converter (resamplers (resampler c)));
       fprintf (mixer_controls card)])%list.

(** Lines 515-523 and 531-539: the stream output of the hw and plug
    branches.  The result is the new [defaultPlaybackPCM] and the blocks
    written. *)
Definition stream_setup (defaultPlaybackPCM : string) (c : ASCONFIG_CONTROLS)
    : string * list event :=
  if streamSwitch c then
    let '(slavePCM, defaultPlaybackPCM') :=
      if streamDefault c then (defaultPlaybackPCM, "stream")
      else ("null", defaultPlaybackPCM) in
    (defaultPlaybackPCM',
     [fprintf (add_streamOut "stream" ASCONFIG_STREAM_INPUT_FORMAT slavePCM
                 ASCONFIG_STREAM_COMMAND)])
  else (defaultPlaybackPCM, []).

(** Lines 509-559: the playback interface switch. *)
Definition interface_setup (p : row) (defaultCapturePCM : option string)
    (c : ASCONFIG_CONTROLS) : list event :=
  let defaultPlaybackPCM := "playback" in
  let playbackInterfaceType := playbackInterface c in
  if (playbackInterfaceType =? 0)%Z then
    let '(defaultPlaybackPCM', stream) := stream_setup defaultPlaybackPCM c in
    ([fprintf (comment playback_hw_comment)]
     ++ stream
     ++ [fprintf (add_default defaultPlaybackPCM' defaultCapturePCM)])%list
  else if (playbackInterfaceType =? 1)%Z then
    let '(defaultPlaybackPCM', stream) := stream_setup defaultPlaybackPCM c in
    ([fprintf (comment playback_plug_comment)]
     ++ stream
     ++ [fprintf (add_plug "match" defaultPlaybackPCM');
         fprintf (add_default "match" defaultCapturePCM)])%list
  else if (playbackInterfaceType =? 2)%Z then
    ([fprintf (comment playback_dmix_comment)]
     ++ (if streamSwitch c
         then [fprintf (add_dmixStream "streamvol" "mix" "stream");
               fprintf (add_streamOut "stream" ASCONFIG_STREAM_INPUT_FORMAT
                          "streamvol" ASCONFIG_STREAM_COMMAND)]
         else [])
     ++ [fprintf (add_plug "match" "mix");
         fprintf (add_dmix "mix" defaultPlaybackPCM (defaultFormat_of p)
                    (defaultChannels_of p) (defaultRate_of p));
         fprintf (add_default "match" defaultCapturePCM)])%list
  else
    [g_warning unknown_interface_msg;
     fprintf (add_default defaultPlaybackPCM defaultCapturePCM)].

(** Lines 400-559: everything written between [fopen] and [fclose], for
    the selected playback row [p]. *)
Definition write_asoundrc (p : row) (capture : option row)
    (c : ASCONFIG_CONTROLS) : list event :=
  let '(defaultCapturePCM, capture_blocks) := capture_setup capture c in
  ([fprintf file_header]
   ++ capture_blocks
   ++ common_setup p c
   ++ interface_setup p defaultCapturePCM c)%list.

(** Lines 375-399 and 560: the checks before the file is opened, the
    overwrite question, the open, and the close. *)
Definition print_asoundrc (deviceTreeview : ASCONFIG_DEVICE_VIEW)
    (asconfigControls : ASCONFIG_CONTROLS) (w : world) : list event :=
  match playbackTreeview deviceTreeview with
  | None => [show_msgbox no_selection_msg "asconfig" GTK_MESSAGE_INFO]
  | Some p =>
      match COLUMN_IN_USE p with
      | Some _ => [show_msgbox in_use_msg "asconfig" GTK_MESSAGE_ERROR]
      | None =>
          let exists_ :=
            match asoundrc w with Some _ => true | None => false end in
          let response_id :=
            if exists_ then gtk_dialog_run w else GTK_RESPONSE_NO in
          let asked :=
            (g_file_test exists_
             :: (if exists_
                 then [show_actionbox overwrite_msg "Overwrite" response_id]
                 else []))%list in
          if exists_ && (response_id =? GTK_RESPONSE_NO)%Z then asked
          else if negb (fopen_ok w) then
            (asked ++
             [fopen false;
              show_msgbox fopen_error_msg "asconfig" GTK_MESSAGE_ERROR])%list
          else
            (asked ++ [fopen true]
             ++ write_asoundrc p (captureTreeview deviceTreeview)
                  asconfigControls
             ++ [fclose])%list
      end
  end.

(** The file a run leaves behind. *)
Definition asoundrc_after (deviceTreeview : ASCONFIG_DEVICE_VIEW)
    (asconfigControls : ASCONFIG_CONTROLS) (w : world) : option string :=
  file_after (print_asoundrc deviceTreeview asconfigControls w) (asoundrc w).

(** ** Vocabulary of the properties *)

(** The text of a sequence of blocks. *)
Fixpoint render_all (bs : list block) : string :=
  match bs with
  | [] => EmptyString
  | b :: rest => render b ++ render_all rest
  end.

(** The stage names a sequence of blocks defines, in order. *)
Fixpoint defined (bs : list block) : list string :=
  match bs with
  | [] => []
  | b :: rest =>
      match stage_name b with
      | Some n => n :: defined rest
      | None => defined rest
      end
  end.

Definition mem (s : string) (l : list string) : bool :=
  existsb (String.eqb s) l.

(** [refs_ok ok seen bs]: every slave reference [s] of [bs] satisfies
    [ok s earlier later], where [earlier] are the stages defined before the
    referring block ([seen] and the blocks of [bs] before it) and [later]
    those defined after it. *)
Fixpoint refs_ok (ok : string -> list string -> list string -> bool)
    (seen : list string) (bs : list block) : bool :=
  match bs with
  | [] => true
  | b :: rest =>
      match slave_pcm b with
      | Some s => ok s seen (defined rest)
      | None => true
      end
      && refs_ok ok (seen ++ defined [b])%list rest
  end.

(** A reference is in order when it names the null sink, which ALSA
    predefines, or an earlier stage; in the two shared modes it may also
    name the mixer, or the capture share, defined later. *)
Definition in_order_or_shared (c : ASCONFIG_CONTROLS) (s : string)
    (earlier later : list string) : bool :=
  (s =? "null")
  || mem s earlier
  || ((s =? "mix") && (playbackInterface c =? 2)%Z && mem s later)
  || ((s =? "snoopCapture") && (captureInterface c =? 2)%Z && mem s later).

(** The playback references of the default selectors in a sequence of
    blocks. *)
Fixpoint default_playback_refs (bs : list block) : list string :=
  match bs with
  | [] => []
  | add_default playbackPCM _ :: rest => playbackPCM :: default_playback_refs rest
  | _ :: rest => default_playback_refs rest
  end.

(** The forced parameter blocks in a sequence of blocks. *)
Definition is_force_parameters (b : block) : bool :=
  match b with
  | force_parameters _ _ _ _ => true
  | _ => false
  end.

(** The run opened the file for writing. *)
Definition is_fopen (e : event) : bool :=
  match e with
  | fopen true => true
  | _ => false
  end.

Definition opened (t : list event) : bool := existsb is_fopen t.

(** The invariant of a capability record on its negotiated rate: it lies
    in the range the hardware reported. *)
Definition rate_in_range (r : row) : Prop :=
  (COLUMN_DEVICE_MIN_RATE r <= COLUMN_DEFAULT_RATE r
   /\ COLUMN_DEFAULT_RATE r <= COLUMN_DEVICE_MAX_RATE r)%N.

(** What ALSA promises of the rate calls: the reported range is not empty,
    and a rate set successfully lies in it. *)
Definition rate_contract (p : snd_pcm_hw_params_t) : Prop :=
  (snd_pcm_hw_params_get_rate_min p <= snd_pcm_hw_params_get_rate_max p)%N
  /\ forall req err near,
       snd_pcm_hw_params_set_rate_near p req = (err, near) ->
       err = 0%Z ->
       (snd_pcm_hw_params_get_rate_min p <= near
        /\ near <= snd_pcm_hw_params_get_rate_max p)%N.

(** ** Sample inputs *)

(** The playback record of the documented scenario: card 0, device 0,
    rates 44100..48000, formats S16_LE and S24_LE, two channels. *)
Definition scenario_row : row :=
  mk_row None 0%N (Some "PCH") (Some "HDA Intel PCH") 0%N
    (Some "ALC892 Analog") (Some "ALC892 Analog")
    2%N 2%N 44100%N 48000%N (Some "S16_LE, S24_LE") (Some "hw:0,0")
    48000%N (Some "S16_LE") 2%N.

(** A card with a single native rate. *)
Definition single_rate_row : row :=
  mk_row None 1%N (Some "bytcrrt5640") (Some "bytcr-rt5640") 0%N
    (Some "Baytrail Audio") (Some "Baytrail Audio")
    2%N 2%N 48000%N 48000%N (Some "S16_LE, S24_LE") (Some "hw:1,0")
    48000%N (Some "S16_LE") 2%N.

Definition busy_row : row := set_in_use scenario_row (Some "*").
Definition error_row : row := set_in_use scenario_row (Some "E").

Definition scenario_view : ASCONFIG_DEVICE_VIEW :=
  mk_view (Some scenario_row) None.

(** The controls as [addControls] leaves them (plug, plug,
    speexrate_medium, no stream), and variations of them. *)
Definition initial_controls : ASCONFIG_CONTROLS :=
  mk_controls 1%Z 1%Z 1%Z false false.

Definition dmix_stream_default : ASCONFIG_CONTROLS :=
  mk_controls 2%Z 1%Z 1%Z true true.

(** No active item in the playback interface combo box. *)
Definition no_interface : ASCONFIG_CONTROLS :=
  mk_controls (-1)%Z 1%Z 1%Z false false.

Definition fresh_world : world := mk_world None GTK_RESPONSE_NO true.

(** A file exists and the overwrite dialog is closed without an answer. *)
Definition dismissed_world : world :=
  mk_world (Some "# my own configuration") GTK_RESPONSE_DELETE_EVENT true.

Definition declined_world : world :=
  mk_world (Some "# my own configuration") GTK_RESPONSE_NO true.

(** The names of the linear formats, as alsa-lib numbers them. *)
Definition linear_format_name (f : snd_pcm_format_t) : string :=
  nth f
    [ "S8"; "U8"; "S16_LE"; "S16_BE"; "U16_LE"; "U16_BE"; "S24_LE"; "S24_BE";
      "U24_LE"; "U24_BE"; "S32_LE"; "S32_BE"; "U32_LE"; "U32_BE" ]
    "SPECIAL".

Definition EINVAL : gint := 22%Z.

(** A converter that runs at 44100 Hz with 32 bit samples only: the rate
    call settles on 44100, the format call for S16_LE fails, two channels
    are accepted. *)
Definition dac_44100_s32 : snd_pcm_t :=
  mk_pcm 0%N 0%Z "USB Audio" "USB Audio" 0%Z
    (mk_pars 0%Z 2%N 2%N 44100%N 44100%N
       (fun f => Nat.eqb f 10)
       (fun _ => (0%Z, 44100%N))
       (fun _ => (- EINVAL)%Z)
       (fun _ => 0%Z)).

(** The same converter while another program holds it. *)
Definition dac_busy : snd_pcm_t :=
  mk_pcm 0%N 0%Z "USB Audio" "USB Audio" (- EBUSY)%Z (pars dac_44100_s32).

Definition usb_card : snd_ctl_t :=
  mk_ctl 2%N 0%Z 0%Z "DAC" "USB DAC" [dac_44100_s32].

(** ** The stream controls (lines 31-33, 722-774, 844-845)

    The state of the window's controls: the five values [print_asoundrc]
    reads, and whether the stream-is-default check button is sensitive. *)

Definition ASCONFIG_DEFAULT_RESAMPLER : gint := 1%Z.
Definition ASCONFIG_DEFAULT_PLAYBACK_INTERFACE : gint := 1%Z.
Definition ASCONFIG_DEFAULT_CAPTURE_INTERFACE : gint := 1%Z.

Record gui : Set := mk_gui {
  asconfigControls : ASCONFIG_CONTROLS;
  streamDefault_sensitive : bool
}.

(** [gtk_toggle_button_set_active] on the stream-is-default button. *)
Definition set_streamDefault (c : ASCONFIG_CONTROLS) (active : bool)
    : ASCONFIG_CONTROLS :=
  mk_controls (playbackInterface c) (captureInterface c) (resampler c)
    (streamSwitch c) active.

(** [gtk_switch_set_active] on the stream switch, and
    [gtk_combo_box_set_active] on the playback interface. *)
Definition set_streamSwitch (c : ASCONFIG_CONTROLS) (active : bool)
    : ASCONFIG_CONTROLS :=
  mk_controls (playbackInterface c) (captureInterface c) (resampler c)
    active (streamDefault c).

Definition set_playbackInterface (c : ASCONFIG_CONTROLS) (i : gint)
    : ASCONFIG_CONTROLS :=
  mk_controls i (captureInterface c) (resampler c) (streamSwitch c)
    (streamDefault c).

(** Lines 722-744: the handler of the switch; [state] is the state the
    switch is about to take. *)
Definition streamSwitchState (state : bool) (g : gui) : gui :=
  let playbackInterfaceType :=
    if state then playbackInterface (asconfigControls g)
    else (-1)%Z (* Control off: force default *) in
  if (playbackInterfaceType =? 0)%Z then mk_gui (asconfigControls g) true
  else if (playbackInterfaceType =? 1)%Z then mk_gui (asconfigControls g) true
  else mk_gui (set_streamDefault (asconfigControls g) false) false.

(** Lines 746-748. *)
Definition playbackInterfaceChanged (g : gui) : gui :=
  streamSwitchState (streamSwitch (asconfigControls g)) g.

(** Lines 750-774: the controls as the window opens.  The combo boxes get
    their default items, the switch is set off, and the handler is called
    once by hand (the signals are connected later, in [main]). *)
Definition addControls : gui :=
  streamSwitchState false
    (mk_gui
       (mk_controls ASCONFIG_DEFAULT_PLAYBACK_INTERFACE
          ASCONFIG_DEFAULT_CAPTURE_INTERFACE ASCONFIG_DEFAULT_RESAMPLER
          false false)
       true).

(** What the user can do to the controls, with the signal each action
    raises (lines 844-845): choosing a playback interface raises changed,
    handled by [playbackInterfaceChanged]; moving the switch raises
    state-set, handled by [streamSwitchState], which returns FALSE so that
    the switch then takes the state; the check button toggles only while
    it is sensitive; the other two combo boxes have no handler. *)
Inductive user_action : Set :=
| choose_playbackInterface (i : gint)
| choose_captureInterface (i : gint)
| choose_resampler (i : gint)
| move_streamSwitch (state : bool)
| click_streamDefault.

Definition act (g : gui) (a : user_action) : gui :=
  let c := asconfigControls g in
  match a with
  | choose_playbackInterface i =>
      if (i =? playbackInterface c)%Z then g
      else
        playbackInterfaceChanged
          (mk_gui (set_playbackInterface c i) (streamDefault_sensitive g))
  | choose_captureInterface i =>
      mk_gui
        (mk_controls (playbackInterface c) i (resampler c) (streamSwitch c)
           (streamDefault c))
        (streamDefault_sensitive g)
  | choose_resampler i =>
      mk_gui
        (mk_controls (playbackInterface c) (captureInterface c) i
           (streamSwitch c) (streamDefault c))
        (streamDefault_sensitive g)
  | move_streamSwitch state =>
      let g' := streamSwitchState state g in
      mk_gui (set_streamSwitch (asconfigControls g') state)
        (streamDefault_sensitive g')
  | click_streamDefault =>
      if streamDefault_sensitive g
      then mk_gui (set_streamDefault c (negb (streamDefault c))) true
      else g
  end.

(** Lines 622-624: the Save button runs the generator on the controls as
    they are. *)
Definition save_clicked (deviceTreeview : ASCONFIG_DEVICE_VIEW) (g : gui)
    (w : world) : list event :=
  print_asoundrc deviceTreeview (asconfigControls g) w.

(** ** More vocabulary *)

Definition is_fclose (e : event) : bool :=
  match e with
  | fclose => true
  | _ => false
  end.

Definition is_fprintf (e : event) : bool :=
  match e with
  | fprintf _ => true
  | _ => false
  end.

Definition is_streamOut (b : block) : bool :=
  match b with
  | add_streamOut _ _ _ _ => true
  | _ => false
  end.

Definition is_dmixStream (b : block) : bool :=
  match b with
  | add_dmixStream _ _ _ => true
  | _ => false
  end.

(** The blocks of the common setup. *)
Definition is_common (b : block) : bool :=
  match b with
  | playback_device _ _ _ | rate_converter _ | mixer_controls _ => true
  | _ => false
  end.

(** The capture references of the default selectors in a sequence of
    blocks. *)
Fixpoint default_capture_refs (bs : list block) : list (option string) :=
  match bs with
  | [] => []
  | add_default _ capturePCM :: rest => capturePCM :: default_capture_refs rest
  | _ :: rest => default_capture_refs rest
  end.

(** The channels and rate a block passes to its slave, if it has them. *)
Definition slave_parameters (b : block) : option (guint * guint) :=
  match b with
  | force_parameters _ _ channels rate => Some (channels, rate)
  | add_dsnoop _ _ _ defaultChannels defaultRate =>
      Some (defaultChannels, defaultRate)
  | add_dmix _ _ _ defaultChannels defaultRate =>
      Some (defaultChannels, defaultRate)
  | _ => None
  end.

(** The first block that defines the stage [name]. *)
Fixpoint find_stage (name : string) (bs : list block) : option block :=
  match bs with
  | [] => None
  | b :: rest =>
      match stage_name b with
      | Some n => if (n =? name) then Some b else find_stage name rest
      | None => find_stage name rest
      end
  end.

(** The stage a stream sent to [name] ends in: slave references are
    followed from block to block until a block without one; [None] when a
    reference leads out of the artifact or the steps run out. *)
Fixpoint sink_of (steps : nat) (bs : list block) (name : string)
    : option block :=
  match steps with
  | O => None
  | S n =>
      match find_stage name bs with
      | None => None
      | Some b =>
          match slave_pcm b with
          | None => Some b
          | Some s => sink_of n bs s
          end
      end
  end.


Definition device_answers (d : snd_pcm_t) : bool :=
  (snd_ctl_pcm_info d =? 0)%Z.


(** What ALSA promises of the channel calls, as [rate_contract] does for
    the rate: the range is not empty, and a count set successfully lies in
    it. *)
Definition channels_contract (p : snd_pcm_hw_params_t) : Prop :=
  (snd_pcm_hw_params_get_channels_min p <= snd_pcm_hw_params_get_channels_max p)%N
  /\ forall n,
       snd_pcm_hw_params_set_channels p n = 0%Z ->
       (snd_pcm_hw_params_get_channels_min p <= n
        /\ n <= snd_pcm_hw_params_get_channels_max p)%N.

(** A device that takes every format up to U32_BE. *)
Definition every_format : snd_pcm_format_t -> bool := fun _ => true.

(** The stages a stream sent to [name] passes, in order, as far as the
    slave references stay inside the artifact. *)
Fixpoint route (steps : nat) (bs : list block) (name : string) : list string :=
  match steps with
  | O => []
  | S n =>
      match find_stage name bs with
      | None => []
      | Some b =>
          name :: match slave_pcm b with
                  | None => []
                  | Some s => route n bs s
                  end
      end
  end.

(** A codec with rates 44100..192000, formats S16_LE and S32_LE and two to
    eight channels; its calls accept what lies in these ranges, and the
    rate call settles on the nearest rate of the range. *)
Definition codec : snd_pcm_t :=
  mk_pcm 0%N 0%Z "ALC892 Analog" "ALC892 Analog" 0%Z
    (mk_pars 0%Z 2%N 8%N 44100%N 192000%N
       (fun f => Nat.eqb f 2 || Nat.eqb f 10)
       (fun req => (0%Z, N.max 44100 (N.min req 192000)))
       (fun f => if Nat.eqb f 2 || Nat.eqb f 10 then 0%Z else (- EINVAL)%Z)
       (fun n => if (2 <=? n)%N && (n <=? 8)%N then 0%Z else (- EINVAL)%Z)).

Definition pch_card : snd_ctl_t :=
  mk_ctl 0%N 0%Z 0%Z "PCH" "HDA Intel PCH" [codec].


(** ** getSampleFormats, store by store (lines 110-123)

    The array the function fills, as the stores it makes: the index
    written and the pointer stored there, [None] for [NULL].  The name of
    a format may be [NULL], and [g_strdup] of [NULL] is [NULL]. *)

Section SampleFormatArray.

Variable SND_PCM_FORMAT_LAST : nat.
Variable snd_pcm_format_name : snd_pcm_format_t -> option string.

(** Lines 115-120: the loop over the formats [fmts] still to test, with
    the index [i] of the next free entry; the result is the index after
    the loop and the stores made, in order. *)
Fixpoint store_sample_formats (fmask : snd_pcm_format_t -> bool)
    (fmts : list snd_pcm_format_t) (i : nat)
    : nat * list (nat * option string) :=
  match fmts with
  | [] => (i, [])
  | fmt :: rest =>
      if fmask fmt then
        let '(n, stores) := store_sample_formats fmask rest (S i) in
        (n, (i, snd_pcm_format_name fmt) :: stores)
      else store_sample_formats fmask rest i
  end.

(** Lines 114-122: the stores of the loop, then the store of the [NULL]
    that ends the array (line 121). *)
Definition getSampleFormats_stores (fmask : snd_pcm_format_t -> bool)
    : list (nat * option string) :=
  let '(i, stores) :=
    store_sample_formats fmask (seq 0 (S SND_PCM_FORMAT_LAST)) 0 in
  (stores ++ [(i, None)])%list.


(** The strings a reader of the array finds from index 0 on, up to the
    first [NULL]: what [g_strjoinv], [free_sample_formats] and the
    fallback to the first format see. *)
Fixpoint until_NULL (entries : list (option string)) : list string :=
  match entries with
  | Some text :: rest => text :: until_NULL rest
  | _ => []
  end.

Definition sample_formats_read (fmask : snd_pcm_format_t -> bool)
    : list string :=
  until_NULL (map snd (getSampleFormats_stores fmask)).

End SampleFormatArray.

(** The linear format names as the library returns them, with no name
    ([NULL]) for a number it does not know. *)
Definition linear_format_name_or_NULL (f : snd_pcm_format_t) : option string :=
  nth_error
    [ "S8"; "U8"; "S16_LE"; "S16_BE"; "U16_LE"; "U16_BE"; "S24_LE"; "S24_BE";
      "U24_LE"; "U24_BE"; "S32_LE"; "S32_BE"; "U32_LE"; "U32_BE" ]
    f.

(** ** Proof steps shared by the case analyses of the generator *)

Ltac unfold_setup :=
  unfold write_asoundrc, capture_setup, common_setup, interface_setup,
    stream_setup.

Ltac split_ifs :=
  repeat match goal with
    | |- context [if ?b then _ else _] => destruct b eqn:?
    end.

(** * Properties *)

(** ** Strings, traces and files *)

Lemma append_assoc (a b c : string) : (a ++ b) ++ c = a ++ (b ++ c).
Proof.
  induction a as [|ch a IH]; simpl; [reflexivity | now rewrite IH].
Qed.

Lemma append_empty_r (a : string) : a ++ EmptyString = a.
Proof.
  induction a as [|ch a IH]; simpl; [reflexivity | now rewrite IH].
Qed.

Lemma snprintf_short (size : nat) (text : string) :
  String.length text < size -> Printf.snprintf size text = text.
Proof.
  unfold Printf.snprintf. intros H.
  assert (G : String.length text <= size - 1) by lia. clear H.
  revert G. generalize (size - 1). induction text as [|ch text IH]; intros n G.
  - destruct n; reflexivity.
  - destruct n as [|n]; simpl in G; [lia|].
    simpl. f_equal. apply IH. lia.
Qed.

Lemma written_app (t1 t2 : list event) :
  written (t1 ++ t2) = (written t1 ++ written t2)%list.
Proof.
  induction t1 as [|e t1 IH]; simpl; [reflexivity|].
  destruct e; simpl; now rewrite ?IH.
Qed.

Lemma defined_app (b1 b2 : list block) :
  defined (b1 ++ b2) = (defined b1 ++ defined b2)%list.
Proof.
  induction b1 as [|b b1 IH]; simpl; [reflexivity|].
  destruct (stage_name b); simpl; now rewrite IH.
Qed.

Lemma file_after_app (t1 t2 : list event) (file : option string) :
  file_after (t1 ++ t2) file = file_after t2 (file_after t1 file).
Proof.
  revert file. induction t1 as [|e t1 IH]; intros file; simpl; [reflexivity|].
  destruct e as [| | |[|]| | |]; apply IH.
Qed.

(** A trace that does not open the file appends the blocks it writes. *)
Lemma file_after_unopened (t : list event) (text : string) :
  opened t = false ->
  file_after t (Some text) = Some (text ++ render_all (written t)).
Proof.
  revert text. induction t as [|e t IH]; intros text H; simpl.
  - now rewrite append_empty_r.
  - unfold opened in H. simpl in H. apply orb_false_iff in H as [He Ht].
    destruct e as [| | |[|]| | |]; simpl in *; try discriminate;
      rewrite ?(IH _ Ht), ?append_assoc; reflexivity.
Qed.

(** A trace that neither opens the file nor writes leaves it as it is. *)
Lemma file_after_untouched (t : list event) (file : option string) :
  existsb opens_file t = false -> written t = [] -> file_after t file = file.
Proof.
  revert file. induction t as [|e t IH]; intros file Ho Hw; simpl; [reflexivity|].
  simpl in Ho. apply orb_false_iff in Ho as [He Ht].
  destruct e as [| | |[|]| | |]; simpl in *; try discriminate; now apply IH.
Qed.

Lemma mem_In (s : string) (l : list string) : mem s l = true <-> In s l.
Proof.
  unfold mem. rewrite existsb_exists. split.
  - intros [x [Hx E]]. apply String.eqb_eq in E. now subst.
  - intros H. exists s. split; [assumption | apply String.eqb_refl].
Qed.

(** ** The shape of a run *)

(** Nothing between [fopen] and [fclose] opens a file. *)
Lemma write_asoundrc_unopened (p : row) (capture : option row)
    (c : ASCONFIG_CONTROLS) :
  opened (write_asoundrc p capture c) = false.
Proof.
  unfold_setup. destruct capture as [q|]; split_ifs; reflexivity.
Qed.

Lemma print_asoundrc_opened (v : ASCONFIG_DEVICE_VIEW) (c : ASCONFIG_CONTROLS)
    (w : world) :
  opened (print_asoundrc v c w) = true ->
  exists p,
    playbackTreeview v = Some p
    /\ COLUMN_IN_USE p = None
    /\ written (print_asoundrc v c w)
       = written (write_asoundrc p (captureTreeview v) c)
    /\ asoundrc_after v c w
       = Some (render_all (written (write_asoundrc p (captureTreeview v) c))).
Proof.
  unfold asoundrc_after, print_asoundrc.
  destruct (playbackTreeview v) as [p|]; [|discriminate].
  destruct (COLUMN_IN_USE p) as [flag|] eqn:Hfree; [discriminate|].
  intros H. exists p. split; [reflexivity|]. split; [assumption|].
  destruct (asoundrc w) as [old|]; simpl in *;
    repeat match goal with
      | H : context [if ?b then _ else _] |- _ => destruct b; try discriminate
      end;
    simpl; rewrite written_app, file_after_app,
      (file_after_unopened _ _ (write_asoundrc_unopened _ _ _));
    simpl; rewrite app_nil_r; split; reflexivity.
Qed.

(** ** Checks before the file is opened *)

(** C4: with no playback row selected, or with a selected row whose in-use
    column is set, the run is the one message box of that failure; it
    contains no [fopen], and the file, present or not, is as it was. *)
Theorem print_asoundrc_precondition_failure (v : ASCONFIG_DEVICE_VIEW)
    (c : ASCONFIG_CONTROLS) (w : world) :
  playbackTreeview v = None
  \/ (exists p flag, playbackTreeview v = Some p /\ COLUMN_IN_USE p = Some flag) ->
  (print_asoundrc v c w
   = match playbackTreeview v with
     | Some _ => [show_msgbox in_use_msg "asconfig" GTK_MESSAGE_ERROR]
     | None => [show_msgbox no_selection_msg "asconfig" GTK_MESSAGE_INFO]
     end)
  /\ existsb opens_file (print_asoundrc v c w) = false
  /\ written (print_asoundrc v c w) = []
  /\ asoundrc_after v c w = asoundrc w.
Proof.
  unfold asoundrc_after, print_asoundrc.
  intros [Hnone | [p [flag [Hsel Hflag]]]].
  - rewrite Hnone. repeat split.
  - rewrite Hsel, Hflag. repeat split.
Qed.

Lemma print_asoundrc_precondition_failure_witness :
  (print_asoundrc (mk_view None None) initial_controls declined_world
   = [show_msgbox no_selection_msg "asconfig" GTK_MESSAGE_INFO])
  /\ (asoundrc_after (mk_view (Some busy_row) None) initial_controls
        declined_world
      = Some "# my own configuration").
Proof.
  split.
  - apply (print_asoundrc_precondition_failure (mk_view None None)
             initial_controls declined_world).
    left. reflexivity.
  - apply (print_asoundrc_precondition_failure (mk_view (Some busy_row) None)
             initial_controls declined_world).
    right. exists busy_row, "*". split; reflexivity.
Defined.

(** C9: whatever the in-use column of the selected playback row holds, the
    mark of a busy device and the mark of a failed one alike, the run is
    the in-use message box alone and the file is as it was. *)
Theorem print_asoundrc_blocked_by_any_flag (v : ASCONFIG_DEVICE_VIEW)
    (c : ASCONFIG_CONTROLS) (w : world) (p : row) (flag : string) :
  playbackTreeview v = Some p ->
  COLUMN_IN_USE p = Some flag ->
  print_asoundrc v c w = [show_msgbox in_use_msg "asconfig" GTK_MESSAGE_ERROR]
  /\ existsb opens_file (print_asoundrc v c w) = false
  /\ asoundrc_after v c w = asoundrc w.
Proof.
  unfold asoundrc_after, print_asoundrc. intros -> ->. repeat split.
Qed.

Lemma print_asoundrc_blocked_by_any_flag_witness :
  (print_asoundrc (mk_view (Some error_row) None) dmix_stream_default
     dismissed_world
   = [show_msgbox in_use_msg "asconfig" GTK_MESSAGE_ERROR])
  /\ (asoundrc_after (mk_view (Some busy_row) (Some scenario_row))
        initial_controls fresh_world
      = None).
Proof.
  split.
  - apply (print_asoundrc_blocked_by_any_flag (mk_view (Some error_row) None)
             dmix_stream_default dismissed_world error_row "E");
      reflexivity.
  - apply (print_asoundrc_blocked_by_any_flag
             (mk_view (Some busy_row) (Some scenario_row))
             initial_controls fresh_world busy_row "*");
      reflexivity.
Defined.

(** The in-use column after a scan: empty for a device whose parameters
    were read, the busy mark when the open fails with EBUSY, the error mark
    for any other failure. *)
Lemma scan_device_in_use (LAST : nat) (name : snd_pcm_format_t -> string)
    (cardInfo : snd_ctl_t) (d : snd_pcm_t) (r : row) :
  In r (scan_device LAST name cardInfo d) ->
  COLUMN_IN_USE r
  = if negb (snd_pcm_open d =? 0)%Z
    then (if (snd_pcm_open d =? - EBUSY)%Z then Some "*" else Some "E")
    else (if (snd_pcm_hw_params_any (pars d) =? 0)%Z then None else Some "E").
Proof.
  unfold scan_device. cbv zeta.
  destruct (snd_ctl_pcm_info d =? 0)%Z; [|contradiction].
  destruct (snd_pcm_open d =? 0)%Z, (snd_pcm_open d =? - EBUSY)%Z,
    (snd_pcm_hw_params_any (pars d) =? 0)%Z; simpl;
    (intros [E | F]; [subst r; reflexivity | destruct F]).
Qed.

(** ** The overwrite question *)

(** The answer No to the overwrite question ends the run: nothing is
    opened and the file keeps its content. *)
Lemma print_asoundrc_declined (v : ASCONFIG_DEVICE_VIEW)
    (c : ASCONFIG_CONTROLS) (w : world) (p : row) (old : string) :
  playbackTreeview v = Some p ->
  COLUMN_IN_USE p = None ->
  asoundrc w = Some old ->
  gtk_dialog_run w = GTK_RESPONSE_NO ->
  print_asoundrc v c w
  = [g_file_test true; show_actionbox overwrite_msg "Overwrite" GTK_RESPONSE_NO]
  /\ asoundrc_after v c w = Some old.
Proof.
  unfold asoundrc_after, print_asoundrc. intros -> -> -> ->.
  split; reflexivity.
Qed.

(** Any other answer, Yes or not, lets the run go on to open the file. *)
Lemma print_asoundrc_not_declined (v : ASCONFIG_DEVICE_VIEW)
    (c : ASCONFIG_CONTROLS) (w : world) (p : row) (old : string) :
  playbackTreeview v = Some p ->
  COLUMN_IN_USE p = None ->
  asoundrc w = Some old ->
  gtk_dialog_run w <> GTK_RESPONSE_NO ->
  fopen_ok w = true ->
  opened (print_asoundrc v c w) = true.
Proof.
  unfold print_asoundrc. intros -> -> -> Hans ->.
  apply Z.eqb_neq in Hans. simpl. rewrite Hans. reflexivity.
Qed.

(** C8, at the failing input: a configuration file exists and the dialog is
    closed without an answer; the file is opened, truncated and written
    over all the same. *)
Theorem dismissed_dialog_overwrites :
  gtk_dialog_run dismissed_world <> GTK_RESPONSE_YES
  /\ opened (print_asoundrc scenario_view initial_controls dismissed_world) = true
  /\ asoundrc_after scenario_view initial_controls dismissed_world
     = Some (render_all
               (written (write_asoundrc scenario_row None initial_controls)))
  /\ asoundrc_after scenario_view initial_controls dismissed_world
     <> asoundrc dismissed_world.
Proof.
  split; [discriminate|]. split; [reflexivity|]. split; [reflexivity|].
  vm_compute. discriminate.
Qed.

(** ** The stream-is-default flag in dmix mode *)

(** C10: in dmix mode two runs that differ only in the stream-is-default
    flag do the same things and leave the same bytes in the file. *)
Theorem dmix_ignores_streamDefault (v : ASCONFIG_DEVICE_VIEW) (w : world)
    (captureInterface resampler : gint) (streamSwitch d1 d2 : bool) :
  print_asoundrc v (mk_controls 2%Z captureInterface resampler streamSwitch d1) w
  = print_asoundrc v (mk_controls 2%Z captureInterface resampler streamSwitch d2) w
  /\ asoundrc_after v
       (mk_controls 2%Z captureInterface resampler streamSwitch d1) w
     = asoundrc_after v
         (mk_controls 2%Z captureInterface resampler streamSwitch d2) w.
Proof.
  assert (E : forall p capture,
             write_asoundrc p capture
               (mk_controls 2%Z captureInterface resampler streamSwitch d1)
             = write_asoundrc p capture
                 (mk_controls 2%Z captureInterface resampler streamSwitch d2)).
  { intros p capture. unfold_setup. reflexivity. }
  assert (T : print_asoundrc v
                (mk_controls 2%Z captureInterface resampler streamSwitch d1) w
              = print_asoundrc v
                  (mk_controls 2%Z captureInterface resampler streamSwitch d2) w).
  { unfold print_asoundrc. destruct (playbackTreeview v) as [p|]; [|reflexivity].
    now rewrite E. }
  split; [exact T|]. unfold asoundrc_after. now rewrite T.
Qed.

(** ** The blocks of a run *)

Lemma written_write_asoundrc (p : row) (capture : option row)
    (c : ASCONFIG_CONTROLS) :
  written (write_asoundrc p capture c)
  = (file_header
     :: written (snd (capture_setup capture c))
     ++ written (common_setup p c)
     ++ written (interface_setup p (fst (capture_setup capture c)) c))%list.
Proof.
  unfold write_asoundrc. destruct (capture_setup capture c) as [pcm blocks].
  cbn [fst snd]. rewrite !written_app. reflexivity.
Qed.

(** The common setup defines the stage playback and no other; it holds
    the forced parameters exactly for a single rate above zero. *)
Lemma written_common_setup (p : row) (c : ASCONFIG_CONTROLS) :
  written (common_setup p c)
  = (playback_device "playback" (COLUMN_CARD p) (COLUMN_DEVICE p)
     :: (if (0 <? COLUMN_DEVICE_MIN_RATE p)%N
            && (COLUMN_DEVICE_MIN_RATE p =? COLUMN_DEVICE_MAX_RATE p)%N
         then [force_parameters "playback" (defaultFormat_of p)
                 (defaultChannels_of p) (defaultRate_of p)]
         else [])
     ++ [rate_converter (resamplers (resampler c));
         mixer_controls (COLUMN_CARD p)])%list.
Proof.
  unfold common_setup. cbv zeta.
  destruct ((0 <? COLUMN_DEVICE_MIN_RATE p)%N
            && (COLUMN_DEVICE_MIN_RATE p =? COLUMN_DEVICE_MAX_RATE p)%N);
    reflexivity.
Qed.

Lemma defined_common_setup (p : row) (c : ASCONFIG_CONTROLS) :
  defined (written (common_setup p c)) = ["playback"].
Proof.
  rewrite written_common_setup.
  destruct ((0 <? COLUMN_DEVICE_MIN_RATE p)%N
            && (COLUMN_DEVICE_MIN_RATE p =? COLUMN_DEVICE_MAX_RATE p)%N);
    reflexivity.
Qed.

(** Neither switch writes forced parameters. *)
Lemma capture_setup_no_force (capture : option row) (c : ASCONFIG_CONTROLS) :
  filter is_force_parameters (written (snd (capture_setup capture c))) = [].
Proof.
  unfold capture_setup. destruct capture as [q|]; [|reflexivity].
  cbv zeta. split_ifs; reflexivity.
Qed.

Lemma interface_setup_no_force (p : row) (pcm : option string)
    (c : ASCONFIG_CONTROLS) :
  filter is_force_parameters (written (interface_setup p pcm c)) = [].
Proof.
  unfold interface_setup, stream_setup. cbv zeta. split_ifs; reflexivity.
Qed.

(** The forced parameter blocks of a run: one, carrying the negotiated
    defaults of the playback row, for a single rate above zero; none
    otherwise. *)
Lemma force_parameters_written (p : row) (capture : option row)
    (c : ASCONFIG_CONTROLS) :
  filter is_force_parameters (written (write_asoundrc p capture c))
  = if (0 <? COLUMN_DEVICE_MIN_RATE p)%N
       && (COLUMN_DEVICE_MIN_RATE p =? COLUMN_DEVICE_MAX_RATE p)%N
    then [force_parameters "playback" (defaultFormat_of p)
            (defaultChannels_of p) (defaultRate_of p)]
    else [].
Proof.
  rewrite written_write_asoundrc. cbn [filter is_force_parameters].
  rewrite !filter_app, capture_setup_no_force, interface_setup_no_force,
    written_common_setup.
  destruct ((0 <? COLUMN_DEVICE_MIN_RATE p)%N
            && (COLUMN_DEVICE_MIN_RATE p =? COLUMN_DEVICE_MAX_RATE p)%N);
    reflexivity.
Qed.

(** A negotiated rate inside a range of one point is that point, and the
    fallback for an undefined rate does not apply to it. *)
Lemma defaultRate_of_single_rate (p : row) :
  rate_in_range p ->
  (0 < COLUMN_DEVICE_MIN_RATE p)%N ->
  COLUMN_DEVICE_MIN_RATE p = COLUMN_DEVICE_MAX_RATE p ->
  defaultRate_of p = COLUMN_DEVICE_MIN_RATE p.
Proof.
  unfold rate_in_range, defaultRate_of. intros [Hlo Hhi] Hpos Heq.
  assert (E : COLUMN_DEFAULT_RATE p = COLUMN_DEVICE_MIN_RATE p) by lia.
  rewrite E. destruct (N.eqb_spec (COLUMN_DEVICE_MIN_RATE p) 0); [lia|reflexivity].
Qed.




(** The scan establishes the invariant: when the rate calls keep their
    contract, every row left free by the scan has its negotiated rate in
    the reported range. *)
Lemma scan_device_rate_in_range (LAST : nat)
    (name : snd_pcm_format_t -> string) (cardInfo : snd_ctl_t)
    (d : snd_pcm_t) (r : row) :
  rate_contract (pars d) ->
  In r (scan_device LAST name cardInfo d) ->
  COLUMN_IN_USE r = None ->
  rate_in_range r.
Proof.
  intros [Hrange Hnear] Hin Hfree.
  pose proof (scan_device_in_use LAST name cardInfo d r Hin) as Hflag.
  rewrite Hfree in Hflag.
  revert Hin. unfold scan_device. cbv zeta.
  destruct (snd_ctl_pcm_info d =? 0)%Z; [|contradiction].
  destruct (snd_pcm_open d =? 0)%Z, (snd_pcm_open d =? - EBUSY)%Z,
    (snd_pcm_hw_params_any (pars d) =? 0)%Z; try discriminate Hflag.
  all: simpl; intros [E | F]; [|destruct F]; subst r;
    unfold rate_in_range; simpl;
    destruct (snd_pcm_hw_params_set_rate_near (pars d) ASCONFIG_DEFAULT_RATE)
      as [err near] eqn:Hcall;
    destruct (Z.eqb_spec err 0) as [Hok|Hfail]; simpl;
    [exact (Hnear _ _ _ Hcall Hok) | split; [apply N.le_refl | exact Hrange]].
Qed.

(** ** The shape of the trace of a run that writes *)

Lemma print_asoundrc_trace (v : ASCONFIG_DEVICE_VIEW) (c : ASCONFIG_CONTROLS)
    (w : world) (p : row) :
  playbackTreeview v = Some p ->
  opened (print_asoundrc v c w) = true ->
  exists asked,
    print_asoundrc v c w
    = (asked ++ fopen true :: write_asoundrc p (captureTreeview v) c
       ++ [fclose])%list.
Proof.
  unfold print_asoundrc. intros ->.
  destruct (COLUMN_IN_USE p); [discriminate|].
  destruct (asoundrc w) as [old|]; simpl;
    repeat match goal with
      | |- context [if ?b then _ else _] => destruct b; try discriminate
      end; intros _.
  - exists [g_file_test true;
            show_actionbox overwrite_msg "Overwrite" (gtk_dialog_run w)].
    reflexivity.
  - exists [g_file_test false]. reflexivity.
Qed.

(** ** An interface index outside the table *)

Lemma interface_setup_unknown (p : row) (pcm : option string)
    (c : ASCONFIG_CONTROLS) :
  playbackInterface c <> 0%Z ->
  playbackInterface c <> 1%Z ->
  playbackInterface c <> 2%Z ->
  interface_setup p pcm c
  = [g_warning unknown_interface_msg; fprintf (add_default "playback" pcm)].
Proof.
  intros H0 H1 H2. unfold interface_setup. cbv zeta.
  apply Z.eqb_neq in H0, H1, H2. now rewrite H0, H1, H2.
Qed.

(** C1, as the program has it: with a playback interface index that is none
    of 0, 1, 2, a run that passes the checks and opens the file logs the
    warning and writes the artifact all the same: the header, the capture
    blocks, the common setup with the hardware stage, and a default
    selector on the stage playback. *)
Theorem unknown_interface_writes_default (v : ASCONFIG_DEVICE_VIEW)
    (c : ASCONFIG_CONTROLS) (w : world) (p : row) :
  playbackTreeview v = Some p ->
  opened (print_asoundrc v c w) = true ->
  playbackInterface c <> 0%Z ->
  playbackInterface c <> 1%Z ->
  playbackInterface c <> 2%Z ->
  In (g_warning unknown_interface_msg) (print_asoundrc v c w)
  /\ written (print_asoundrc v c w)
     = (file_header
        :: written (snd (capture_setup (captureTreeview v) c))
        ++ written (common_setup p c)
        ++ [add_default "playback" (fst (capture_setup (captureTreeview v) c))])%list
  /\ asoundrc_after v c w = Some (render_all (written (print_asoundrc v c w))).
Proof.
  intros Hsel Hopen H0 H1 H2.
  destruct (print_asoundrc_opened v c w Hopen) as [p' [Hsel' [_ [Hw Hfile]]]].
  rewrite Hsel in Hsel'. injection Hsel' as <-.
  destruct (print_asoundrc_trace v c w p Hsel Hopen) as [asked Htrace].
  split; [|split].
  - rewrite Htrace. apply in_or_app. right. right. apply in_or_app. left.
    unfold write_asoundrc.
    destruct (capture_setup (captureTreeview v) c) as [pcm blocks].
    rewrite (interface_setup_unknown p pcm c H0 H1 H2).
    rewrite !in_app_iff. do 3 right. left. reflexivity.
  - rewrite Hw, written_write_asoundrc,
      (interface_setup_unknown p _ c H0 H1 H2). reflexivity.
  - rewrite Hfile, Hw. reflexivity.
Qed.

Lemma unknown_interface_writes_default_witness :
  In (g_warning unknown_interface_msg)
     (print_asoundrc scenario_view no_interface fresh_world)
  /\ written (print_asoundrc scenario_view no_interface fresh_world)
     = [file_header; playback_device "playback" 0%N 0%N;
        rate_converter (Some "speexrate_medium"); mixer_controls 0%N;
        add_default "playback" None].
Proof.
  destruct (unknown_interface_writes_default scenario_view no_interface
              fresh_world scenario_row eq_refl eq_refl)
    as [Hwarn [Hblocks _]]; try discriminate.
  split; [exact Hwarn | exact Hblocks].
Defined.

(** C1, as stated, fails: with no active item in the playback interface
    combo box the file is opened and stage blocks are written to it, the
    hardware stage playback among them. *)
Lemma unknown_interface_counterexample :
  playbackInterface no_interface = (-1)%Z
  /\ opened (print_asoundrc scenario_view no_interface fresh_world) = true
  /\ In (playback_device "playback" 0%N 0%N)
        (written (print_asoundrc scenario_view no_interface fresh_world))
  /\ stage_name (playback_device "playback" 0%N 0%N) = Some "playback"
  /\ asoundrc_after scenario_view no_interface fresh_world
     = Some (render_all
               [file_header; playback_device "playback" 0%N 0%N;
                rate_converter (Some "speexrate_medium"); mixer_controls 0%N;
                add_default "playback" None]).
Proof.
  repeat split. simpl. tauto.
Qed.

(** ** The default selector *)

Lemma default_playback_refs_app (b1 b2 : list block) :
  default_playback_refs (b1 ++ b2)
  = (default_playback_refs b1 ++ default_playback_refs b2)%list.
Proof.
  induction b1 as [|b b1 IH]; simpl; [reflexivity|].
  destruct b; simpl; now rewrite ?IH.
Qed.

Lemma capture_setup_no_default (capture : option row) (c : ASCONFIG_CONTROLS) :
  default_playback_refs (written (snd (capture_setup capture c))) = [].
Proof.
  unfold capture_setup. destruct capture as [q|]; [|reflexivity].
  cbv zeta. split_ifs; reflexivity.
Qed.

Lemma common_setup_no_default (p : row) (c : ASCONFIG_CONTROLS) :
  default_playback_refs (written (common_setup p c)) = [].
Proof.
  rewrite written_common_setup.
  destruct ((0 <? COLUMN_DEVICE_MIN_RATE p)%N
            && (COLUMN_DEVICE_MIN_RATE p =? COLUMN_DEVICE_MAX_RATE p)%N);
    reflexivity.
Qed.

(** Every branch of the playback switch ends with the one default
    selector it writes, on the stage playback or on a stage the branch
    defined before it. *)
Lemma interface_setup_default (p : row) (pcm : option string)
    (c : ASCONFIG_CONTROLS) :
  exists mid playbackPCM,
    written (interface_setup p pcm c) = (mid ++ [add_default playbackPCM pcm])%list
    /\ (playbackPCM = "playback" \/ In playbackPCM (defined mid))
    /\ default_playback_refs mid = [].
Proof.
  unfold interface_setup, stream_setup. cbv zeta. split_ifs; simpl;
    match goal with
    | |- exists mid playbackPCM, ?l = _ /\ _ =>
        let m := eval simpl in (removelast l) in
        exists m;
        match eval simpl in (last l file_header) with
        | add_default ?x _ => exists x
        end
    end;
    (split; [reflexivity | split; [simpl; tauto | reflexivity]]).
Qed.

(** C7: in every run that writes, whatever the playback interface, the
    artifact ends with its only default selector, and the playback stage
    that selector names is defined by a block written before it. *)
Theorem default_selector_resolves (v : ASCONFIG_DEVICE_VIEW)
    (c : ASCONFIG_CONTROLS) (w : world) :
  opened (print_asoundrc v c w) = true ->
  exists pre playbackPCM capturePCM,
    written (print_asoundrc v c w)
    = (pre ++ [add_default playbackPCM capturePCM])%list
    /\ In playbackPCM (defined pre)
    /\ default_playback_refs pre = [].
Proof.
  intros Hopen.
  destruct (print_asoundrc_opened v c w Hopen) as [p [_ [_ [Hw _]]]].
  rewrite Hw, written_write_asoundrc.
  set (capture := capture_setup (captureTreeview v) c).
  destruct (interface_setup_default p (fst capture) c)
    as [mid [playbackPCM [Hmid [Hdef Hone]]]].
  rewrite Hmid.
  exists (file_header :: written (snd capture) ++ written (common_setup p c)
          ++ mid)%list, playbackPCM, (fst capture).
  split; [|split].
  - rewrite <- app_comm_cons, <- !app_assoc. reflexivity.
  - cbn [defined stage_name].
    rewrite !defined_app, defined_common_setup, !in_app_iff.
    destruct Hdef as [-> | Hdef]; [right; left; left; reflexivity | tauto].
  - subst capture. cbn [default_playback_refs].
    rewrite !default_playback_refs_app, capture_setup_no_default,
      common_setup_no_default, Hone. reflexivity.
Qed.

Lemma default_selector_resolves_witness :
  exists pre playbackPCM capturePCM,
    written (print_asoundrc (mk_view (Some scenario_row) (Some scenario_row))
               dmix_stream_default fresh_world)
    = (pre ++ [add_default playbackPCM capturePCM])%list
    /\ In playbackPCM (defined pre)
    /\ default_playback_refs pre = [].
Proof.
  apply (default_selector_resolves
           (mk_view (Some scenario_row) (Some scenario_row))
           dmix_stream_default fresh_world).
  reflexivity.
Defined.

(** ** The stream output in dmix mode *)

(** C6, as the program has it: in dmix mode with the stream switch on, the
    playback side of the artifact is, in this order, the hardware stage
    playback, the volume stage streamvol on mix, the file stage stream on
    streamvol, the adapter match on mix and the mixer mix on playback; the
    default selector is on match, whatever the stream-is-default flag. *)
Theorem dmix_stream_graph (p : row) (capture : option row)
    (captureInterface resampler : gint) (streamDefault : bool) :
  written (write_asoundrc p capture
             (mk_controls 2%Z captureInterface resampler true streamDefault))
  = (file_header
     :: written (snd (capture_setup capture
                        (mk_controls 2%Z captureInterface resampler true
                           streamDefault)))
     ++ written (common_setup p
                   (mk_controls 2%Z captureInterface resampler true
                      streamDefault))
     ++ [comment playback_dmix_comment;
         add_dmixStream "streamvol" "mix" "stream";
         add_streamOut "stream" ASCONFIG_STREAM_INPUT_FORMAT "streamvol"
           ASCONFIG_STREAM_COMMAND;
         add_plug "match" "mix";
         add_dmix "mix" "playback" (defaultFormat_of p) (defaultChannels_of p)
           (defaultRate_of p);
         add_default "match"
           (fst (capture_setup capture
                   (mk_controls 2%Z captureInterface resampler true
                      streamDefault)))])%list
  /\ defined (written (common_setup p
                         (mk_controls 2%Z captureInterface resampler true
                            streamDefault)))
     = ["playback"]
  /\ default_playback_refs
       (written (write_asoundrc p capture
                   (mk_controls 2%Z captureInterface resampler true
                      streamDefault)))
     = ["match"].
Proof.
  split; [|split].
  - rewrite written_write_asoundrc. reflexivity.
  - apply defined_common_setup.
  - rewrite written_write_asoundrc. cbn [default_playback_refs].
    rewrite !default_playback_refs_app, capture_setup_no_default,
      common_setup_no_default. reflexivity.
Qed.

(** C6, as stated, fails: in the documented scenario with dmix, the stream
    switch on and the stream marked default, the default selector names
    the adapter match, not the file stage stream. *)
Lemma dmix_stream_counterexample :
  written (print_asoundrc scenario_view dmix_stream_default fresh_world)
  = [file_header; playback_device "playback" 0%N 0%N;
     rate_converter (Some "speexrate_medium"); mixer_controls 0%N;
     comment playback_dmix_comment;
     add_dmixStream "streamvol" "mix" "stream";
     add_streamOut "stream" "raw" "streamvol" ASCONFIG_STREAM_COMMAND;
     add_plug "match" "mix";
     add_dmix "mix" "playback" "S16_LE" 2%N 48000%N;
     add_default "match" None]
  /\ default_playback_refs
       (written (print_asoundrc scenario_view dmix_stream_default fresh_world))
     = ["match"]
  /\ String.eqb "match" "stream" = false.
Proof.
  repeat split.
Qed.

(** ** The order of slave references *)

(** What [refs_ok] computes, for each way of cutting the sequence at a
    block. *)
Lemma refs_ok_split (ok : string -> list string -> list string -> bool)
    (pre : list block) :
  forall (seen : list string) (b : block) (post : list block) (s : string),
    refs_ok ok seen (pre ++ b :: post) = true ->
    slave_pcm b = Some s ->
    ok s (seen ++ defined pre)%list (defined post) = true.
Proof.
  induction pre as [|a pre IH]; intros seen b post s Hok Hs.
  - simpl in Hok. rewrite Hs in Hok. apply andb_true_iff in Hok as [Hb _].
    simpl. now rewrite app_nil_r.
  - simpl in Hok. apply andb_true_iff in Hok as [_ Hrest].
    specialize (IH _ b post s Hrest Hs).
    change (a :: pre)%list with ([a] ++ pre)%list.
    now rewrite defined_app, app_assoc.
Qed.

(** A run that writes nothing has not opened the file; one that writes
    has, and writes the blocks of [write_asoundrc]. *)
Lemma print_asoundrc_written (v : ASCONFIG_DEVICE_VIEW) (c : ASCONFIG_CONTROLS)
    (w : world) :
  written (print_asoundrc v c w) = []
  \/ opened (print_asoundrc v c w) = true.
Proof.
  unfold print_asoundrc.
  destruct (playbackTreeview v) as [p|]; [|left; reflexivity].
  destruct (COLUMN_IN_USE p); [left; reflexivity|].
  destruct (asoundrc w) as [old|]; simpl;
    repeat match goal with
      | |- context [if ?b then _ else _] => destruct b
      end; simpl; auto.
Qed.

(** The blocks of every run pass the check of [in_order_or_shared]. *)
Lemma write_asoundrc_refs_ok (p : row) (capture : option row)
    (c : ASCONFIG_CONTROLS) :
  refs_ok (in_order_or_shared c) [] (written (write_asoundrc p capture c)) = true.
Proof.
  destruct c as [pi ci rs sw sd].
  unfold in_order_or_shared. unfold_setup. simpl.
  destruct capture as [q|]; split_ifs; reflexivity.
Qed.

(** C5, as the program has it: in every artifact, the slave reference of a
    block names the null sink, or a stage defined by an earlier block, or,
    in the shared modes only, the mixer mix (playback interface dmix) or
    the capture share snoopCapture (capture interface dsnoop), defined by
    a later block of the same artifact. *)
Theorem slave_references_resolve (v : ASCONFIG_DEVICE_VIEW)
    (c : ASCONFIG_CONTROLS) (w : world) (pre : list block) (b : block)
    (post : list block) (s : string) :
  written (print_asoundrc v c w) = (pre ++ b :: post)%list ->
  slave_pcm b = Some s ->
  s = "null"
  \/ In s (defined pre)
  \/ (s = "mix" /\ playbackInterface c = 2%Z /\ In s (defined post))
  \/ (s = "snoopCapture" /\ captureInterface c = 2%Z /\ In s (defined post)).
Proof.
  intros Hcut Hs.
  destruct (print_asoundrc_written v c w) as [Hnone | Hopen].
  - rewrite Hnone in Hcut. destruct pre; discriminate.
  - destruct (print_asoundrc_opened v c w Hopen) as [p [_ [_ [Hw _]]]].
    pose proof (write_asoundrc_refs_ok p (captureTreeview v) c) as Hok.
    rewrite <- Hw, Hcut in Hok.
    pose proof (refs_ok_split _ pre [] b post s Hok Hs) as H.
    simpl in H. unfold in_order_or_shared in H.
    rewrite !orb_true_iff, !andb_true_iff, !String.eqb_eq, !Z.eqb_eq,
      !mem_In in H.
    tauto.
Qed.

Lemma slave_references_resolve_witness :
  "mix" = "null"
  \/ In "mix"
        (defined
           [file_header; playback_device "playback" 0%N 0%N;
            rate_converter (Some "speexrate_medium"); mixer_controls 0%N;
            comment playback_dmix_comment;
            add_dmixStream "streamvol" "mix" "stream";
            add_streamOut "stream" "raw" "streamvol" ASCONFIG_STREAM_COMMAND])
  \/ ("mix" = "mix" /\ playbackInterface dmix_stream_default = 2%Z
      /\ In "mix"
            (defined
               [add_dmix "mix" "playback" "S16_LE" 2%N 48000%N;
                add_default "match" None]))
  \/ ("mix" = "snoopCapture" /\ captureInterface dmix_stream_default = 2%Z
      /\ In "mix"
            (defined
               [add_dmix "mix" "playback" "S16_LE" 2%N 48000%N;
                add_default "match" None])).
Proof.
  apply (slave_references_resolve scenario_view dmix_stream_default fresh_world
           _ (add_plug "match" "mix") _ "mix");
    reflexivity.
Defined.

(** C5, as stated, fails: in the documented scenario with dmix the adapter
    match is written before the mixer mix it has as slave; mix is defined
    by no earlier block, and by a later one. *)
Lemma forward_reference_counterexample :
  written (print_asoundrc scenario_view dmix_stream_default fresh_world)
  = ([file_header; playback_device "playback" 0%N 0%N;
      rate_converter (Some "speexrate_medium"); mixer_controls 0%N;
      comment playback_dmix_comment;
      add_dmixStream "streamvol" "mix" "stream";
      add_streamOut "stream" "raw" "streamvol" ASCONFIG_STREAM_COMMAND]
     ++ add_plug "match" "mix"
     :: [add_dmix "mix" "playback" "S16_LE" 2%N 48000%N;
         add_default "match" None])%list
  /\ slave_pcm (add_plug "match" "mix") = Some "mix"
  /\ mem "mix"
       (defined
          [file_header; playback_device "playback" 0%N 0%N;
           rate_converter (Some "speexrate_medium"); mixer_controls 0%N;
           comment playback_dmix_comment;
           add_dmixStream "streamvol" "mix" "stream";
           add_streamOut "stream" "raw" "streamvol" ASCONFIG_STREAM_COMMAND])
     = false
  /\ mem "mix"
       (defined
          [add_dmix "mix" "playback" "S16_LE" 2%N 48000%N;
           add_default "match" None])
     = true.
Proof.
  repeat split.
Qed.

(** ** The scan *)

(** The rows of a scan: those already in the store, and those of every
    device of every card whose control interface opens and answers. *)
Lemma scancards_rows (LAST : nat) (name : snd_pcm_format_t -> string)
    (snd_card_next : snd_pcm_stream_t -> list snd_ctl_t)
    (stream : snd_pcm_stream_t) (store : GtkListStore) (r : row) :
  In r (scancards LAST name snd_card_next stream store)
  <-> In r store
      \/ exists cardInfo d,
           In cardInfo (snd_card_next stream)
           /\ snd_ctl_open cardInfo = 0%Z
           /\ snd_ctl_card_info cardInfo = 0%Z
           /\ In d (snd_ctl_pcm_next_device cardInfo)
           /\ In r (scan_device LAST name cardInfo d).
Proof.
  unfold scancards. rewrite in_app_iff, in_flat_map.
  split; (intros [Hstore | H]; [left; exact Hstore | right]).
  - destruct H as [cardInfo [Hcard Hr]]. unfold scan_card in Hr.
    destruct (Z.eqb_spec (snd_ctl_open cardInfo) 0) as [Ho|]; [|destruct Hr].
    destruct (Z.eqb_spec (snd_ctl_card_info cardInfo) 0) as [Hi|]; [|destruct Hr].
    simpl in Hr. apply in_flat_map in Hr as [d [Hd Hr]].
    exists cardInfo, d. auto.
  - destruct H as [cardInfo [d [Hcard [Ho [Hi [Hd Hr]]]]]].
    exists cardInfo. split; [exact Hcard|].
    unfold scan_card. rewrite Ho, Hi. simpl.
    apply in_flat_map. exists d. auto.
Qed.

(** C2, as the program has it: a device whose parameters are read gets one
    free row, and each negotiated default of that row depends on the
    result of its own call alone.  A failed rate call gives the minimum
    rate, a successful one the rate the hardware settled on; a failed
    format call gives the first reported format, a successful one S16_LE;
    a failed channels call gives the minimum channels, a successful one
    two. *)
Theorem scan_device_negotiation (LAST : nat)
    (name : snd_pcm_format_t -> string) (cardInfo : snd_ctl_t)
    (d : snd_pcm_t) :
  snd_ctl_pcm_info d = 0%Z ->
  snd_pcm_open d = 0%Z ->
  snd_pcm_hw_params_any (pars d) = 0%Z ->
  exists r,
    scan_device LAST name cardInfo d = [r]
    /\ COLUMN_IN_USE r = None
    /\ (forall err near,
          snd_pcm_hw_params_set_rate_near (pars d) ASCONFIG_DEFAULT_RATE
          = (err, near) ->
          (err <> 0%Z ->
           COLUMN_DEFAULT_RATE r = snd_pcm_hw_params_get_rate_min (pars d))
          /\ (err = 0%Z -> COLUMN_DEFAULT_RATE r = near))
    /\ (snd_pcm_hw_params_set_format (pars d) ASCONFIG_DEFAULT_FORMAT <> 0%Z ->
        forall first,
          hd_error (getSampleFormats LAST name (snd_pcm_format_mask_test (pars d)))
          = Some first ->
          String.length first < 64 ->
          COLUMN_DEFAULT_FORMAT r = Some first)
    /\ (snd_pcm_hw_params_set_format (pars d) ASCONFIG_DEFAULT_FORMAT = 0%Z ->
        COLUMN_DEFAULT_FORMAT r = Some ASCONFIG_DEFAULT_FORMAT_NAME)
    /\ (snd_pcm_hw_params_set_channels (pars d) ASCONFIG_DEFAULT_CHANNELS <> 0%Z ->
        COLUMN_DEFAULT_CHANNELS r = snd_pcm_hw_params_get_channels_min (pars d))
    /\ (snd_pcm_hw_params_set_channels (pars d) ASCONFIG_DEFAULT_CHANNELS = 0%Z ->
        COLUMN_DEFAULT_CHANNELS r = ASCONFIG_DEFAULT_CHANNELS).
Proof.
  intros Hinfo Hopen Hany. unfold scan_device. cbv zeta.
  rewrite Hinfo, Hopen, Hany. simpl.
  eexists. split; [reflexivity|]. simpl. split; [reflexivity|].
  split; [|split; [|split; [|split]]].
  - intros err near ->. split; intros H.
    + apply Z.eqb_neq in H. now rewrite H.
    + subst err. reflexivity.
  - intros H first Hfirst Hlen. apply Z.eqb_neq in H. rewrite H, Hfirst.
    simpl. f_equal. apply (snprintf_short 64 first Hlen).
  - intros ->. reflexivity.
  - intros H. apply Z.eqb_neq in H. now rewrite H.
  - intros ->. reflexivity.
Qed.

Lemma scan_device_negotiation_witness :
  exists r,
    scan_device 13 linear_format_name usb_card dac_44100_s32 = [r]
    /\ COLUMN_IN_USE r = None
    /\ COLUMN_DEFAULT_RATE r = 44100%N
    /\ COLUMN_DEFAULT_FORMAT r = Some "S32_LE"
    /\ COLUMN_DEFAULT_CHANNELS r = 2%N.
Proof.
  destruct (scan_device_negotiation 13 linear_format_name usb_card
              dac_44100_s32 eq_refl eq_refl eq_refl)
    as [r [Hrow [Hfree [Hrate [Hfmt [_ [_ Hch]]]]]]].
  exists r. split; [exact Hrow|]. split; [exact Hfree|]. split; [|split].
  - apply (Hrate 0%Z 44100%N eq_refl). reflexivity.
  - apply Hfmt; [discriminate | reflexivity | simpl; lia].
  - apply Hch. reflexivity.
Defined.

(** C2, as stated, fails: for a converter that runs at 44100 Hz with 32
    bit samples only, the format call is the one call of the three that is
    rejected, and yet the negotiated rate is 44100, not the preferred
    48000. *)
Lemma negotiation_counterexample :
  snd_pcm_hw_params_any (pars dac_44100_s32) = 0%Z
  /\ fst (snd_pcm_hw_params_set_rate_near (pars dac_44100_s32)
            ASCONFIG_DEFAULT_RATE) = 0%Z
  /\ snd_pcm_hw_params_set_format (pars dac_44100_s32) ASCONFIG_DEFAULT_FORMAT
     = (- EINVAL)%Z
  /\ snd_pcm_hw_params_set_channels (pars dac_44100_s32)
       ASCONFIG_DEFAULT_CHANNELS = 0%Z
  /\ map COLUMN_DEFAULT_RATE
       (scan_device 13 linear_format_name usb_card dac_44100_s32)
     = [44100%N]
  /\ map COLUMN_DEFAULT_FORMAT
       (scan_device 13 linear_format_name usb_card dac_44100_s32)
     = [Some "S32_LE"]
  /\ (44100 =? ASCONFIG_DEFAULT_RATE)%N = false.
Proof.
  repeat split.
Qed.

(** ** The documented scenarios, evaluated *)

(** Direct mode, no capture device, no stream: one hardware stage, the
    rate converter, the mixer controls of card 0 and a default selector on
    playback with no capture clause. *)
Example scenario_direct_text :
  asoundrc_after scenario_view (mk_controls 0%Z 1%Z 1%Z false false) fresh_world
  = Some
      (Printf.lines
         [ "# User asoundrc file written by asconfig";
           "# Selected playback device";
           "pcm.!playback {";
           "   type hw";
           "   card 0";
           "   device 0";
           "}";
           "# Default rate converter for plug and dmix";
           "# Make sure package alsa-plugins is installed to use";
           "# higher quality speexrate_medium resampling.";
           "defaults.pcm.rate_converter " ++ Printf.dq ++ "speexrate_medium"
             ++ Printf.dq;
           "# Selected card mixer controls";
           "ctl.!default {";
           "   type hw";
           "   card 0";
           "}";
           "# Direct hardware access selected - no software conversions.";
           "# Only one application can use the playback device at a time.";
           "# Playback sample rates / formats / channels *MUST* match";
           "# the cards native ranges, otherwise playback will fail.";
           "pcm.!default pcm.playback" ]).
Proof. reflexivity. Qed.

(** A busy playback row: the in-use message, and the file as it was. *)
Example scenario_busy :
  print_asoundrc (mk_view (Some busy_row) None) initial_controls declined_world
  = [show_msgbox in_use_msg "asconfig" GTK_MESSAGE_ERROR]
  /\ asoundrc_after (mk_view (Some busy_row) None) initial_controls
       declined_world
     = Some "# my own configuration".
Proof. split; reflexivity. Qed.

(** The answer No keeps the file; so does a failed [fopen]. *)
Example scenario_declined :
  asoundrc_after scenario_view initial_controls declined_world
  = Some "# my own configuration"
  /\ asoundrc_after scenario_view initial_controls
       (mk_world (Some "# my own configuration") GTK_RESPONSE_YES false)
     = Some "# my own configuration".
Proof. split; reflexivity. Qed.

(** The scan of a card with one device held by another program: one row,
    marked busy, with no parameters. *)
Example scan_busy_device :
  map (fun r => (COLUMN_IN_USE r, COLUMN_DEVICE_ALSA_HW r, COLUMN_DEFAULT_RATE r))
    (scancards 13 linear_format_name
       (fun _ => [mk_ctl 2%N 0%Z 0%Z "DAC" "USB DAC" [dac_busy]])
       SND_PCM_STREAM_PLAYBACK [])
  = [(Some "*", Some "hw:2,0", 0%N)].
Proof. reflexivity. Qed.

(** * Further properties of the generator *)

Lemma write_asoundrc_keeps_handle (p : row) (capture : option row)
    (c : ASCONFIG_CONTROLS) :
  existsb opens_file (write_asoundrc p capture c) = false
  /\ existsb is_fclose (write_asoundrc p capture c) = false.
Proof.
  unfold_setup. destruct capture as [q|]; split_ifs; split; reflexivity.
Qed.

(** X1: when a free playback row is selected, the overwrite question, if
    asked, is not answered No, and [fopen] fails, the run ends with the
    failed open and the error message box; it writes nothing, closes
    nothing, and the file, present or not, is as it was. *)
Theorem print_asoundrc_fopen_failure (v : ASCONFIG_DEVICE_VIEW)
    (c : ASCONFIG_CONTROLS) (w : world) (p : row) :
  playbackTreeview v = Some p ->
  COLUMN_IN_USE p = None ->
  asoundrc w = None \/ gtk_dialog_run w <> GTK_RESPONSE_NO ->
  fopen_ok w = false ->
  (exists asked,
     print_asoundrc v c w
     = (asked ++ [fopen false;
                  show_msgbox fopen_error_msg "asconfig" GTK_MESSAGE_ERROR])%list
     /\ existsb opens_file asked = false)
  /\ written (print_asoundrc v c w) = []
  /\ existsb is_fclose (print_asoundrc v c w) = false
  /\ asoundrc_after v c w = asoundrc w.
Proof.
  unfold asoundrc_after, print_asoundrc. intros -> -> Hgo ->.
  destruct (asoundrc w) as [old|]; simpl.
  - destruct Hgo as [Hnone | Hans]; [discriminate|].
    apply Z.eqb_neq in Hans. rewrite Hans. simpl.
    repeat split. eexists [_; _]. split; reflexivity.
  - repeat split. eexists [_]. split; reflexivity.
Qed.

Lemma print_asoundrc_fopen_failure_witness :
  written (print_asoundrc scenario_view dmix_stream_default
             (mk_world (Some "# my own configuration") GTK_RESPONSE_YES false))
  = []
  /\ asoundrc_after scenario_view dmix_stream_default
       (mk_world (Some "# my own configuration") GTK_RESPONSE_YES false)
     = Some "# my own configuration".
Proof.
  destruct (print_asoundrc_fopen_failure scenario_view dmix_stream_default
              (mk_world (Some "# my own configuration") GTK_RESPONSE_YES false)
              scenario_row eq_refl eq_refl)
    as [_ [Hw [_ Hfile]]];
    [right; discriminate | reflexivity | split; assumption].
Defined.

(** X2: a run either never opens the file, and then writes nothing and
    closes nothing, or opens it once, writes, and closes it once as its
    last action: all that is written lies between the open and the close,
    and nothing in between opens or closes a file. *)
Theorem print_asoundrc_open_close (v : ASCONFIG_DEVICE_VIEW)
    (c : ASCONFIG_CONTROLS) (w : world) :
  (existsb is_fopen (print_asoundrc v c w) = false
   /\ existsb is_fprintf (print_asoundrc v c w) = false
   /\ existsb is_fclose (print_asoundrc v c w) = false)
  \/ (exists asked body,
        print_asoundrc v c w = (asked ++ fopen true :: body ++ [fclose])%list
        /\ existsb opens_file asked = false
        /\ existsb is_fprintf asked = false
        /\ existsb is_fclose asked = false
        /\ existsb opens_file body = false
        /\ existsb is_fclose body = false).
Proof.
  unfold print_asoundrc.
  destruct (playbackTreeview v) as [p|]; [|left; repeat split].
  destruct (COLUMN_IN_USE p); [left; repeat split|].
  pose proof (write_asoundrc_keeps_handle p (captureTreeview v) c) as [Ho Hc].
  destruct (asoundrc w) as [old|]; simpl.
  - destruct (gtk_dialog_run w =? GTK_RESPONSE_NO)%Z; [left; repeat split|].
    destruct (fopen_ok w); simpl; [right | left; repeat split].
    eexists [_; _], _. repeat split; assumption.
  - destruct (fopen_ok w); simpl; [right | left; repeat split].
    eexists [_], _. repeat split; assumption.
Qed.

(** X3: the open truncates: whenever the file is written, its new content
    is the header line followed by the rest of the artifact, and depends
    on the selection and the controls only, not on what the file held
    before nor on how the question was answered. *)
Theorem asoundrc_after_fresh (v : ASCONFIG_DEVICE_VIEW)
    (c : ASCONFIG_CONTROLS) (w w' : world) :
  opened (print_asoundrc v c w) = true ->
  opened (print_asoundrc v c w') = true ->
  asoundrc_after v c w = asoundrc_after v c w'
  /\ exists rest,
       asoundrc_after v c w = Some (render file_header ++ rest).
Proof.
  intros H H'.
  destruct (print_asoundrc_opened v c w H) as [p [Hp [_ [_ Hf]]]].
  destruct (print_asoundrc_opened v c w' H') as [p' [Hp' [_ [_ Hf']]]].
  rewrite Hp in Hp'. injection Hp' as <-. split.
  - now rewrite Hf, Hf'.
  - rewrite Hf, written_write_asoundrc. eexists. reflexivity.
Qed.

Lemma asoundrc_after_fresh_witness :
  asoundrc_after scenario_view initial_controls fresh_world
  = asoundrc_after scenario_view initial_controls dismissed_world
  /\ exists rest,
       asoundrc_after scenario_view initial_controls fresh_world
       = Some (render file_header ++ rest).
Proof.
  apply (asoundrc_after_fresh scenario_view initial_controls fresh_world
           dismissed_world); reflexivity.
Defined.

(** X4: with a free playback row selected and a file already there, the
    question is asked once, and the file is opened exactly when the answer
    is not No and [fopen] succeeds; otherwise the file keeps its
    content. *)
Theorem print_asoundrc_existing_file (v : ASCONFIG_DEVICE_VIEW)
    (c : ASCONFIG_CONTROLS) (w : world) (p : row) (old : string) :
  playbackTreeview v = Some p ->
  COLUMN_IN_USE p = None ->
  asoundrc w = Some old ->
  (exists rest,
     print_asoundrc v c w
     = g_file_test true
       :: show_actionbox overwrite_msg "Overwrite" (gtk_dialog_run w) :: rest)
  /\ (opened (print_asoundrc v c w) = true
      <-> gtk_dialog_run w <> GTK_RESPONSE_NO /\ fopen_ok w = true)
  /\ (opened (print_asoundrc v c w) = false -> asoundrc_after v c w = Some old).
Proof.
  unfold asoundrc_after, print_asoundrc. intros -> -> ->. simpl.
  destruct (Z.eqb_spec (gtk_dialog_run w) GTK_RESPONSE_NO) as [Hno|Hans];
    [|destruct (fopen_ok w)]; simpl.
  - split; [eexists; reflexivity|]. split; [|reflexivity].
    split; [discriminate | intros [H _]; contradiction].
  - split; [eexists; reflexivity|]. split; [|discriminate].
    split; [intros _; split; [assumption | reflexivity] | reflexivity].
  - split; [eexists; reflexivity|]. split; [|reflexivity].
    split; [discriminate | intros [_ H]; discriminate].
Qed.

Lemma print_asoundrc_existing_file_witness :
  opened (print_asoundrc scenario_view initial_controls declined_world) = false
  /\ asoundrc_after scenario_view initial_controls declined_world
     = Some "# my own configuration".
Proof.
  destruct (print_asoundrc_existing_file scenario_view initial_controls
              declined_world scenario_row "# my own configuration"
              eq_refl eq_refl eq_refl)
    as [_ [_ Hkeep]].
  split; [reflexivity | apply Hkeep; reflexivity].
Defined.

(** X5: with a free playback row selected and no file there, no question
    is asked; the file is created exactly when [fopen] succeeds, and is
    still absent otherwise. *)
Theorem print_asoundrc_no_file (v : ASCONFIG_DEVICE_VIEW)
    (c : ASCONFIG_CONTROLS) (w : world) (p : row) :
  playbackTreeview v = Some p ->
  COLUMN_IN_USE p = None ->
  asoundrc w = None ->
  (forall msg title response_id,
     ~ In (show_actionbox msg title response_id) (print_asoundrc v c w))
  /\ (fopen_ok w = true ->
      asoundrc_after v c w
      = Some (render_all (written (write_asoundrc p (captureTreeview v) c))))
  /\ (fopen_ok w = false -> asoundrc_after v c w = None).
Proof.
  intros Hp Hfree Hnone.
  assert (T : print_asoundrc v c w
              = if fopen_ok w
                then (g_file_test false :: fopen true
                      :: write_asoundrc p (captureTreeview v) c ++ [fclose])%list
                else [g_file_test false; fopen false;
                      show_msgbox fopen_error_msg "asconfig" GTK_MESSAGE_ERROR]).
  { unfold print_asoundrc. rewrite Hp, Hfree, Hnone. simpl.
    destruct (fopen_ok w); reflexivity. }
  split; [|split].
  - intros msg title response_id Hin. rewrite T in Hin.
    destruct (fopen_ok w).
    + destruct Hin as [E | [E | Hin]]; try discriminate.
      apply in_app_iff in Hin as [Hin | [E | []]]; [|discriminate].
      revert Hin. unfold_setup.
      destruct (captureTreeview v) as [q|]; split_ifs; simpl;
        intuition discriminate.
    + simpl in Hin. intuition discriminate.
  - intros Hok.
    assert (Hopen : opened (print_asoundrc v c w) = true)
      by (rewrite T, Hok; reflexivity).
    destruct (print_asoundrc_opened v c w Hopen) as [p' [Hp' [_ [_ Hf]]]].
    rewrite Hp in Hp'. injection Hp' as <-. exact Hf.
  - intros Hfail. unfold asoundrc_after. rewrite T, Hfail, Hnone. reflexivity.
Qed.

Lemma print_asoundrc_no_file_witness :
  asoundrc_after scenario_view initial_controls (mk_world None 0%Z false) = None.
Proof.
  apply (print_asoundrc_no_file scenario_view initial_controls
           (mk_world None 0%Z false) scenario_row eq_refl eq_refl eq_refl).
  reflexivity.
Defined.

(** * The stages of an artifact *)

Lemma default_capture_refs_app (b1 b2 : list block) :
  default_capture_refs (b1 ++ b2)
  = (default_capture_refs b1 ++ default_capture_refs b2)%list.
Proof.
  induction b1 as [|b b1 IH]; simpl; [reflexivity|].
  destruct b; simpl; now rewrite ?IH.
Qed.

(** The capture endpoint is [NULL] exactly without a selected capture
    row, and is otherwise a stage the capture blocks define. *)
Lemma capture_setup_endpoint (capture : option row) (c : ASCONFIG_CONTROLS) :
  match fst (capture_setup capture c) with
  | None => capture = None
  | Some s =>
      capture <> None
      /\ In s (defined (written (snd (capture_setup capture c))))
  end.
Proof.
  unfold capture_setup. destruct capture as [q|]; [|reflexivity].
  cbv zeta. split_ifs; simpl; (split; [discriminate | tauto]).
Qed.

(** X6: the default selector of a run carries a capture reference exactly
    when a capture row is selected, and the stage that reference names is
    defined by a block written before the selector. *)
Theorem default_selector_capture (v : ASCONFIG_DEVICE_VIEW)
    (c : ASCONFIG_CONTROLS) (w : world) :
  opened (print_asoundrc v c w) = true ->
  exists pre playbackPCM capturePCM,
    written (print_asoundrc v c w)
    = (pre ++ [add_default playbackPCM capturePCM])%list
    /\ (capturePCM = None <-> captureTreeview v = None)
    /\ (forall s, capturePCM = Some s -> In s (defined pre)).
Proof.
  intros Hopen.
  destruct (print_asoundrc_opened v c w Hopen) as [p [_ [_ [Hw _]]]].
  rewrite Hw, written_write_asoundrc.
  pose proof (capture_setup_endpoint (captureTreeview v) c) as Hend.
  destruct (interface_setup_default p (fst (capture_setup (captureTreeview v) c)) c)
    as [mid [playbackPCM [Hmid _]]].
  rewrite Hmid.
  exists (file_header :: written (snd (capture_setup (captureTreeview v) c))
          ++ written (common_setup p c) ++ mid)%list,
    playbackPCM, (fst (capture_setup (captureTreeview v) c)).
  split; [|split].
  - rewrite <- app_comm_cons, <- !app_assoc. reflexivity.
  - destruct (fst (capture_setup (captureTreeview v) c)) as [s|].
    + destruct Hend as [Hsel _]. split; [discriminate | contradiction].
    + split; [intros _; exact Hend | reflexivity].
  - intros s Hs. rewrite Hs in Hend. destruct Hend as [_ Hin].
    cbn [defined stage_name]. rewrite !defined_app, !in_app_iff. tauto.
Qed.

Lemma default_selector_capture_witness :
  exists pre playbackPCM capturePCM,
    written (print_asoundrc (mk_view (Some scenario_row) (Some single_rate_row))
               (mk_controls 0%Z 2%Z 0%Z false false) fresh_world)
    = (pre ++ [add_default playbackPCM capturePCM])%list
    /\ (capturePCM = None <-> Some single_rate_row = None)
    /\ (forall s, capturePCM = Some s -> In s (defined pre)).
Proof.
  apply (default_selector_capture
           (mk_view (Some scenario_row) (Some single_rate_row))
           (mk_controls 0%Z 2%Z 0%Z false false) fresh_world).
  reflexivity.
Defined.

(** X7: no stage is defined twice: the stage names of the blocks of a run
    are pairwise distinct. *)
Theorem stage_names_unique (v : ASCONFIG_DEVICE_VIEW) (c : ASCONFIG_CONTROLS)
    (w : world) :
  NoDup (defined (written (print_asoundrc v c w))).
Proof.
  destruct (print_asoundrc_written v c w) as [Hnone | Hopen].
  - rewrite Hnone. constructor.
  - destruct (print_asoundrc_opened v c w Hopen) as [p [_ [_ [Hw _]]]].
    rewrite Hw. unfold_setup.
    destruct (captureTreeview v) as [q|]; split_ifs; simpl;
      repeat (constructor; [simpl; intuition discriminate|]); constructor.
Qed.

Lemma defaultRate_of_nonzero (r : row) : defaultRate_of r <> 0%N.
Proof.
  unfold defaultRate_of.
  destruct (N.eqb_spec (COLUMN_DEFAULT_RATE r) 0); [discriminate | assumption].
Qed.

Lemma defaultChannels_of_nonzero (r : row) : defaultChannels_of r <> 0%N.
Proof.
  unfold defaultChannels_of.
  destruct (N.eqb_spec (COLUMN_DEFAULT_CHANNELS r) 0); [discriminate | assumption].
Qed.

(** X8: no block of a run passes a zero rate or a zero channel count to
    its slave: where the row has none, the hard coded defaults stand
    in. *)
Theorem slave_parameters_nonzero (v : ASCONFIG_DEVICE_VIEW)
    (c : ASCONFIG_CONTROLS) (w : world) (b : block) (channels rate : guint) :
  In b (written (print_asoundrc v c w)) ->
  slave_parameters b = Some (channels, rate) ->
  channels <> 0%N /\ rate <> 0%N.
Proof.
  intros Hin Hs.
  destruct (print_asoundrc_written v c w) as [Hnone | Hopen];
    [rewrite Hnone in Hin; destruct Hin|].
  destruct (print_asoundrc_opened v c w Hopen) as [p [_ [_ [Hw _]]]].
  rewrite Hw in Hin. clear Hw Hopen.
  pose proof (defaultRate_of_nonzero p).
  pose proof (defaultChannels_of_nonzero p).
  revert Hin. unfold_setup.
  destruct (captureTreeview v) as [q|];
    [pose proof (defaultRate_of_nonzero q);
     pose proof (defaultChannels_of_nonzero q)|];
    split_ifs; simpl; intros Hin;
    repeat (destruct Hin as [<- | Hin]; [simpl in Hs; try discriminate|]);
    try destruct Hin;
    injection Hs as <- <-; split; assumption.
Qed.

Lemma slave_parameters_nonzero_witness :
  In (add_dmix "mix" "playback" "S16_LE" 2%N 48000%N)
     (written
        (print_asoundrc
           (mk_view (Some (mk_row None 0%N None None 0%N None None
                             0%N 0%N 0%N 0%N None None 0%N None 0%N)) None)
           dmix_stream_default fresh_world))
  /\ 2%N <> 0%N /\ 48000%N <> 0%N.
Proof.
  assert (Hin : In (add_dmix "mix" "playback" "S16_LE" 2%N 48000%N)
                  (written
                     (print_asoundrc
                        (mk_view (Some (mk_row None 0%N None None 0%N None None
                                          0%N 0%N 0%N 0%N None None 0%N None 0%N))
                           None)
                        dmix_stream_default fresh_world)))
    by (simpl; tauto).
  split; [exact Hin|].
  exact (slave_parameters_nonzero _ _ _ _ 2%N 48000%N Hin eq_refl).
Defined.

(** * The stream output *)

(** X9: in the hw and plug modes the stream stage is written exactly when
    the stream switch is on; its slave is the hardware stage when the
    stream is marked default and the null sink when it is not; no volume
    stage is written.  The default selector is then on stream (hw, stream
    default), on playback (hw otherwise) or on the adapter match (plug),
    whose slave is stream when the stream is default and playback when it
    is not. *)
Theorem stream_tap_hw_plug (p : row) (capture : option row)
    (c : ASCONFIG_CONTROLS) :
  playbackInterface c = 0%Z \/ playbackInterface c = 1%Z ->
  filter is_streamOut (written (write_asoundrc p capture c))
  = (if streamSwitch c
     then [add_streamOut "stream" ASCONFIG_STREAM_INPUT_FORMAT
             (if streamDefault c then "playback" else "null")
             ASCONFIG_STREAM_COMMAND]
     else [])
  /\ filter is_dmixStream (written (write_asoundrc p capture c)) = []
  /\ default_playback_refs (written (write_asoundrc p capture c))
     = [if (playbackInterface c =? 1)%Z then "match"
        else if streamSwitch c && streamDefault c then "stream"
        else "playback"]
  /\ (playbackInterface c = 1%Z ->
      In (add_plug "match"
            (if streamSwitch c && streamDefault c then "stream" else "playback"))
         (written (write_asoundrc p capture c))).
Proof.
  destruct c as [pi ci rs sw sd]. simpl.
  intros [-> | ->]; unfold_setup; simpl;
    destruct capture as [q|]; split_ifs; simpl;
    repeat split; try discriminate; intros _; tauto.
Qed.

Lemma stream_tap_hw_plug_witness :
  filter is_streamOut
    (written (write_asoundrc scenario_row None
                (mk_controls 1%Z 1%Z 1%Z true true)))
  = [add_streamOut "stream" "raw" "playback" ASCONFIG_STREAM_COMMAND]
  /\ In (add_plug "match" "stream")
        (written (write_asoundrc scenario_row None
                    (mk_controls 1%Z 1%Z 1%Z true true))).
Proof.
  destruct (stream_tap_hw_plug scenario_row None
              (mk_controls 1%Z 1%Z 1%Z true true))
    as [Hs [_ [_ Hm]]]; [right; reflexivity|].
  split; [exact Hs | apply Hm; reflexivity].
Defined.

(** X10: with the stream switch off, in every mode, the stream-is-default
    flag changes nothing of what is written, and neither a stream stage
    nor a volume stage is written. *)
Theorem stream_switch_off (p : row) (capture : option row)
    (playbackInterface captureInterface resampler : gint) (d1 d2 : bool) :
  write_asoundrc p capture
    (mk_controls playbackInterface captureInterface resampler false d1)
  = write_asoundrc p capture
      (mk_controls playbackInterface captureInterface resampler false d2)
  /\ filter is_streamOut
       (written (write_asoundrc p capture
                   (mk_controls playbackInterface captureInterface resampler
                      false d1)))
     = []
  /\ filter is_dmixStream
       (written (write_asoundrc p capture
                   (mk_controls playbackInterface captureInterface resampler
                      false d1)))
     = [].
Proof.
  unfold_setup. simpl.
  destruct capture as [q|]; split_ifs; repeat split.
Qed.

(** X11: every artifact holds the same three blocks of the common setup,
    once each and in this order: the hardware stage playback on the card
    and device of the selected row, the rate converter of the resampler
    combo box, and the mixer controls on that same card. *)
Theorem common_blocks (p : row) (capture : option row) (c : ASCONFIG_CONTROLS) :
  filter is_common (written (write_asoundrc p capture c))
  = [playback_device "playback" (COLUMN_CARD p) (COLUMN_DEVICE p);
     rate_converter (resamplers (resampler c));
     mixer_controls (COLUMN_CARD p)].
Proof.
  unfold_setup. destruct capture as [q|]; split_ifs; reflexivity.
Qed.

(** * Where the streams end *)

(** X12: followed through the slave references of the artifact, the
    playback reference of the default selector always ends in the
    hardware stage of the selected playback row, and its capture
    reference, when there is one, in the hardware stage of the selected
    capture row. *)
Theorem default_selector_sinks (p : row) (capture : option row)
    (c : ASCONFIG_CONTROLS) :
  map (sink_of (length (written (write_asoundrc p capture c)))
         (written (write_asoundrc p capture c)))
    (default_playback_refs (written (write_asoundrc p capture c)))
  = [Some (playback_device "playback" (COLUMN_CARD p) (COLUMN_DEVICE p))]
  /\ map (fun r =>
            match r with
            | Some s =>
                sink_of (length (written (write_asoundrc p capture c)))
                  (written (write_asoundrc p capture c)) s
            | None => None
            end)
       (default_capture_refs (written (write_asoundrc p capture c)))
     = [match capture with
        | Some q =>
            Some (capture_device "capture" (COLUMN_CARD q) (COLUMN_DEVICE q))
        | None => None
        end].
Proof.
  unfold_setup. destruct capture as [q|]; split_ifs; split; reflexivity.
Qed.

(** X13: the stream stage is written exactly when the stream switch is
    on and the interface is hw, plug or dmix; its slave is streamvol in
    dmix mode, playback in the hw and plug modes when the stream is marked
    default, and null otherwise, a name no block of the artifact defines.
    So the stream ends in the playback hardware in dmix mode and, when
    marked default, in the hw and plug modes, and leaves the artifact for
    the null sink in the hw and plug modes without that mark. *)
Theorem stream_sink (p : row) (capture : option row) (c : ASCONFIG_CONTROLS) :
  find_stage "stream" (written (write_asoundrc p capture c))
  = (if streamSwitch c
        && ((playbackInterface c =? 0)%Z || (playbackInterface c =? 1)%Z
            || (playbackInterface c =? 2)%Z)
     then Some (add_streamOut "stream" ASCONFIG_STREAM_INPUT_FORMAT
                  (if (playbackInterface c =? 0)%Z || (playbackInterface c =? 1)%Z
                   then (if streamDefault c then "playback" else "null")
                   else "streamvol")
                  ASCONFIG_STREAM_COMMAND)
     else None)
  /\ find_stage "null" (written (write_asoundrc p capture c)) = None
  /\ sink_of (length (written (write_asoundrc p capture c)))
       (written (write_asoundrc p capture c)) "stream"
     = (if streamSwitch c
           && ((playbackInterface c =? 2)%Z
               || (((playbackInterface c =? 0)%Z || (playbackInterface c =? 1)%Z)
                   && streamDefault c))
        then Some (playback_device "playback" (COLUMN_CARD p) (COLUMN_DEVICE p))
        else None).
Proof.
  destruct c as [pi ci rs sw sd]. unfold_setup. simpl.
  destruct capture as [q|]; split_ifs; repeat split; try reflexivity;
    repeat match goal with
      | H : (_ =? _)%Z = true |- _ => apply Z.eqb_eq in H
      end; exfalso; lia.
Qed.

(** * Further properties of the scan *)

Lemma filter_seq_least (fmask : nat -> bool) (n : nat) :
  forall (a fmt : nat),
    a <= fmt < a + n ->
    fmask fmt = true ->
    (forall g, a <= g < fmt -> fmask g = false) ->
    exists rest, filter fmask (seq a n) = fmt :: rest.
Proof.
  induction n as [|n IH]; intros a fmt Hrange Hm Hleast; [lia|].
  simpl. destruct (Nat.eq_dec a fmt) as [->|Hne].
  - rewrite Hm. eexists. reflexivity.
  - rewrite (Hleast a) by lia.
    apply (IH (S a) fmt); [lia | assumption |].
    intros g Hg. apply Hleast. lia.
Qed.

(** X15: the first sample format, the one the scan falls back to when
    S16_LE is rejected, is the name of the lowest numbered format of the
    mask. *)
Theorem getSampleFormats_first (LAST : nat)
    (name : snd_pcm_format_t -> string) (fmask : snd_pcm_format_t -> bool)
    (fmt : snd_pcm_format_t) :
  fmt <= LAST ->
  fmask fmt = true ->
  (forall g, g < fmt -> fmask g = false) ->
  hd_error (getSampleFormats LAST name fmask) = Some (name fmt).
Proof.
  intros Hle Hm Hleast. unfold getSampleFormats.
  assert (H : exists rest, filter fmask (seq 0 (S LAST)) = fmt :: rest).
  { apply filter_seq_least; [lia | assumption |].
    intros g Hg. apply Hleast. lia. }
  destruct H as [rest H]. rewrite H. reflexivity.
Qed.

Lemma getSampleFormats_first_witness :
  hd_error (getSampleFormats 13 linear_format_name
              (fun f => Nat.leb 6 f && Nat.leb f 10))
  = Some "S24_LE".
Proof.
  apply (getSampleFormats_first 13 linear_format_name
           (fun f => Nat.leb 6 f && Nat.leb f 10) 6).
  - lia.
  - reflexivity.
  - intros g Hg. destruct (Nat.leb_spec 6 g); [lia | reflexivity].
Defined.

Lemma scan_device_key (LAST : nat) (name : snd_pcm_format_t -> string)
    (cardInfo : snd_ctl_t) (d : snd_pcm_t) :
  map (fun r => (COLUMN_CARD r, COLUMN_DEVICE r))
    (scan_device LAST name cardInfo d)
  = if device_answers d then [(card_number cardInfo, pcm_device d)] else [].
Proof.
  unfold scan_device, device_answers. cbv zeta.
  destruct (snd_ctl_pcm_info d =? 0)%Z; [|reflexivity].
  destruct (snd_pcm_open d =? 0)%Z, (snd_pcm_open d =? - EBUSY)%Z,
    (snd_pcm_hw_params_any (pars d) =? 0)%Z; reflexivity.
Qed.




(** * From the scan to the artifact *)

Lemma scan_device_channels_in_range (LAST : nat)
    (name : snd_pcm_format_t -> string) (cardInfo : snd_ctl_t)
    (d : snd_pcm_t) (r : row) :
  channels_contract (pars d) ->
  In r (scan_device LAST name cardInfo d) ->
  COLUMN_IN_USE r = None ->
  (COLUMN_DEVICE_MIN_CHANNELS r <= COLUMN_DEFAULT_CHANNELS r
   /\ COLUMN_DEFAULT_CHANNELS r <= COLUMN_DEVICE_MAX_CHANNELS r)%N.
Proof.
  intros [Hrange Hset] Hin Hfree.
  pose proof (scan_device_in_use LAST name cardInfo d r Hin) as Hflag.
  rewrite Hfree in Hflag.
  revert Hin. unfold scan_device. cbv zeta.
  destruct (snd_ctl_pcm_info d =? 0)%Z; [|contradiction].
  destruct (snd_pcm_open d =? 0)%Z, (snd_pcm_open d =? - EBUSY)%Z,
    (snd_pcm_hw_params_any (pars d) =? 0)%Z; try discriminate Hflag.
  all: simpl; intros [E | F]; [|destruct F]; subst r; simpl;
    destruct (Z.eqb_spec
                (snd_pcm_hw_params_set_channels (pars d) ASCONFIG_DEFAULT_CHANNELS)
                0) as [Hok|Hfail];
    [exact (Hset _ Hok) | split; [apply N.le_refl | exact Hrange]].
Qed.

(** X19: when the rate and channel calls of every device keep their
    contract, every free row of a fresh scan has its negotiated rate
    within the rate range it reports and its negotiated channel count
    within the channel range it reports. *)
Theorem scancards_defaults_in_range (LAST : nat)
    (name : snd_pcm_format_t -> string)
    (snd_card_next : snd_pcm_stream_t -> list snd_ctl_t)
    (stream : snd_pcm_stream_t) (r : row) :
  (forall cardInfo d,
     In cardInfo (snd_card_next stream) ->
     In d (snd_ctl_pcm_next_device cardInfo) ->
     rate_contract (pars d) /\ channels_contract (pars d)) ->
  In r (scancards LAST name snd_card_next stream []) ->
  COLUMN_IN_USE r = None ->
  rate_in_range r
  /\ (COLUMN_DEVICE_MIN_CHANNELS r <= COLUMN_DEFAULT_CHANNELS r
      /\ COLUMN_DEFAULT_CHANNELS r <= COLUMN_DEVICE_MAX_CHANNELS r)%N.
Proof.
  intros Hcontract Hin Hfree.
  apply scancards_rows in Hin as [[] | [cardInfo [d [Hc [_ [_ [Hd Hr]]]]]]].
  destruct (Hcontract cardInfo d Hc Hd) as [Hrate Hch]. split.
  - exact (scan_device_rate_in_range LAST name cardInfo d r Hrate Hr Hfree).
  - exact (scan_device_channels_in_range LAST name cardInfo d r Hch Hr Hfree).
Qed.

Lemma scancards_defaults_in_range_witness :
  exists r,
    In r (scancards 13 linear_format_name (fun _ => [pch_card])
            SND_PCM_STREAM_PLAYBACK [])
    /\ COLUMN_DEFAULT_RATE r = 48000%N
    /\ rate_in_range r
    /\ (COLUMN_DEVICE_MIN_CHANNELS r <= COLUMN_DEFAULT_CHANNELS r
        /\ COLUMN_DEFAULT_CHANNELS r <= COLUMN_DEVICE_MAX_CHANNELS r)%N.
Proof.
  assert (Hin : In (hd scenario_row
                      (scancards 13 linear_format_name (fun _ => [pch_card])
                         SND_PCM_STREAM_PLAYBACK []))
                  (scancards 13 linear_format_name (fun _ => [pch_card])
                     SND_PCM_STREAM_PLAYBACK []))
    by (left; reflexivity).
  eexists. split; [exact Hin|]. split; [reflexivity|].
  apply (scancards_defaults_in_range 13 linear_format_name
           (fun _ => [pch_card]) SND_PCM_STREAM_PLAYBACK _); [|exact Hin|reflexivity].
  intros cardInfo d [<- | []] [<- | []]. split; (split; [simpl; lia|]).
  - simpl. intros req err near E _. injection E as _ <-. lia.
  - simpl. intros n Hn.
    destruct (N.leb_spec 2 n); destruct (N.leb_spec n 8);
      simpl in Hn; try discriminate. lia.
Defined.

Lemma scan_device_free_row (LAST : nat) (name : snd_pcm_format_t -> string)
    (cardInfo : snd_ctl_t) (d : snd_pcm_t) (r : row) :
  In r (scan_device LAST name cardInfo d) ->
  COLUMN_IN_USE r = None ->
  COLUMN_DEVICE_MIN_RATE r = snd_pcm_hw_params_get_rate_min (pars d)
  /\ COLUMN_DEVICE_MAX_RATE r = snd_pcm_hw_params_get_rate_max (pars d).
Proof.
  intros Hin Hfree.
  pose proof (scan_device_in_use LAST name cardInfo d r Hin) as Hflag.
  rewrite Hfree in Hflag.
  revert Hin. unfold scan_device. cbv zeta.
  destruct (snd_ctl_pcm_info d =? 0)%Z; [|contradiction].
  destruct (snd_pcm_open d =? 0)%Z, (snd_pcm_open d =? - EBUSY)%Z,
    (snd_pcm_hw_params_any (pars d) =? 0)%Z; try discriminate Hflag.
  all: simpl; intros [E | F]; [|destruct F]; subst r; split; reflexivity.
Qed.

(** X20: from the scan to the artifact: for a device with a single rate
    above zero whose rate call keeps its contract, the free row the scan
    makes, once selected for playback, gets exactly one forced parameter
    block in every artifact written, and the rate that block pins is the
    single rate of the hardware. *)
Theorem scanned_single_rate_pinned (LAST : nat)
    (name : snd_pcm_format_t -> string) (cardInfo : snd_ctl_t)
    (d : snd_pcm_t) (r : row) (capture : option row)
    (c : ASCONFIG_CONTROLS) (w : world) :
  rate_contract (pars d) ->
  (0 < snd_pcm_hw_params_get_rate_min (pars d))%N ->
  snd_pcm_hw_params_get_rate_min (pars d)
  = snd_pcm_hw_params_get_rate_max (pars d) ->
  In r (scan_device LAST name cardInfo d) ->
  COLUMN_IN_USE r = None ->
  opened (print_asoundrc (mk_view (Some r) capture) c w) = true ->
  filter is_force_parameters
    (written (print_asoundrc (mk_view (Some r) capture) c w))
  = [force_parameters "playback" (defaultFormat_of r) (defaultChannels_of r)
       (snd_pcm_hw_params_get_rate_min (pars d))].
Proof.
  intros Hcontract Hpos Hsingle Hin Hfree Hopen.
  destruct (scan_device_free_row LAST name cardInfo d r Hin Hfree) as [Hmin Hmax].
  pose proof (scan_device_rate_in_range LAST name cardInfo d r Hcontract Hin Hfree)
    as Hrange.
  destruct (print_asoundrc_opened _ c w Hopen) as [p [Hp [_ [Hw _]]]].
  simpl in Hp. injection Hp as <-. rewrite Hw, force_parameters_written.
  assert (Hpos' : (0 < COLUMN_DEVICE_MIN_RATE r)%N) by (rewrite Hmin; exact Hpos).
  assert (Heq : COLUMN_DEVICE_MIN_RATE r = COLUMN_DEVICE_MAX_RATE r)
    by (rewrite Hmin, Hmax; exact Hsingle).
  assert (Hcond : (0 <? COLUMN_DEVICE_MIN_RATE r)%N
                  && (COLUMN_DEVICE_MIN_RATE r =? COLUMN_DEVICE_MAX_RATE r)%N
                  = true)
    by (apply andb_true_iff; split; [apply N.ltb_lt | apply N.eqb_eq]; assumption).
  rewrite Hcond, (defaultRate_of_single_rate r Hrange Hpos' Heq), Hmin.
  reflexivity.
Qed.

Lemma scanned_single_rate_pinned_witness :
  filter is_force_parameters
    (written
       (print_asoundrc
          (mk_view
             (Some (hd scenario_row
                      (scan_device 13 linear_format_name usb_card dac_44100_s32)))
             None)
          initial_controls fresh_world))
  = [force_parameters "playback" "S32_LE" 2%N 44100%N].
Proof.
  apply (scanned_single_rate_pinned 13 linear_format_name usb_card
           dac_44100_s32
           (hd scenario_row
              (scan_device 13 linear_format_name usb_card dac_44100_s32))
           None initial_controls fresh_world).
  - split; [simpl; lia|]. simpl. intros req err near E _.
    injection E as _ <-. lia.
  - reflexivity.
  - reflexivity.
  - left. reflexivity.
  - reflexivity.
  - reflexivity.
Defined.

Lemma capture_device_written (p r : row) (c : ASCONFIG_CONTROLS) :
  In (capture_device "capture" (COLUMN_CARD r) (COLUMN_DEVICE r))
     (written (write_asoundrc p (Some r) c)).
Proof.
  rewrite written_write_asoundrc. right. apply in_or_app. left.
  unfold capture_setup. cbv zeta. split_ifs; left; reflexivity.
Qed.

(** X21: from the scan to the artifact: a device that could not be opened
    or read when it was scanned cannot be the playback device of an
    artifact: with its row selected for playback, whatever else is
    selected or set, the run is the in-use message box alone and the file
    is as it was.  The capture side makes no such check: with the same row
    selected for capture beside a free playback row, every artifact
    written holds the device as the hardware stage capture. *)
Theorem unavailable_device_blocked (LAST : nat)
    (name : snd_pcm_format_t -> string) (cardInfo : snd_ctl_t)
    (d : snd_pcm_t) (r : row) (capture : option row)
    (c : ASCONFIG_CONTROLS) (w : world) :
  In r (scan_device LAST name cardInfo d) ->
  snd_pcm_open d <> 0%Z \/ snd_pcm_hw_params_any (pars d) <> 0%Z ->
  print_asoundrc (mk_view (Some r) capture) c w
  = [show_msgbox in_use_msg "asconfig" GTK_MESSAGE_ERROR]
  /\ asoundrc_after (mk_view (Some r) capture) c w = asoundrc w
  /\ (forall p,
        opened (print_asoundrc (mk_view (Some p) (Some r)) c w) = true ->
        In (capture_device "capture" (card_number cardInfo) (pcm_device d))
           (written (print_asoundrc (mk_view (Some p) (Some r)) c w))).
Proof.
  intros Hin Hfail.
  pose proof (scan_device_in_use LAST name cardInfo d r Hin) as Hflag.
  assert (Hset : exists flag, COLUMN_IN_USE r = Some flag).
  { rewrite Hflag.
    destruct (Z.eqb_spec (snd_pcm_open d) 0) as [Ho|Ho],
      (snd_pcm_open d =? - EBUSY)%Z,
      (Z.eqb_spec (snd_pcm_hw_params_any (pars d)) 0) as [Ha|Ha];
      try (eexists; reflexivity); destruct Hfail; contradiction. }
  destruct Hset as [flag Hset].
  split; [|split].
  - unfold print_asoundrc. simpl. rewrite Hset. reflexivity.
  - unfold asoundrc_after, print_asoundrc. simpl. rewrite Hset. reflexivity.
  - intros p Hopen.
    destruct (print_asoundrc_opened _ c w Hopen) as [p' [Hp [_ [Hw _]]]].
    simpl in Hp. injection Hp as <-. rewrite Hw.
    assert (Hkey : In (COLUMN_CARD r, COLUMN_DEVICE r)
                     (map (fun r => (COLUMN_CARD r, COLUMN_DEVICE r))
                        (scan_device LAST name cardInfo d)))
      by (apply (in_map (fun r => (COLUMN_CARD r, COLUMN_DEVICE r))); exact Hin).
    rewrite scan_device_key in Hkey.
    destruct (device_answers d); [|destruct Hkey].
    destruct Hkey as [E | []]. injection E as Hcard Hdev.
    rewrite Hcard, Hdev. apply capture_device_written.
Qed.

Lemma unavailable_device_blocked_witness :
  print_asoundrc
    (mk_view
       (Some (hd scenario_row
                (scan_device 13 linear_format_name usb_card dac_busy)))
       None)
    dmix_stream_default dismissed_world
  = [show_msgbox in_use_msg "asconfig" GTK_MESSAGE_ERROR]
  /\ In (capture_device "capture" 2%N 0%N)
        (written
           (print_asoundrc
              (mk_view (Some scenario_row)
                 (Some (hd scenario_row
                          (scan_device 13 linear_format_name usb_card dac_busy))))
              dmix_stream_default dismissed_world)).
Proof.
  destruct (unavailable_device_blocked 13 linear_format_name usb_card dac_busy
              (hd scenario_row
                 (scan_device 13 linear_format_name usb_card dac_busy))
              None dmix_stream_default dismissed_world)
    as [Hrun _]; [left; reflexivity | left; discriminate|].
  destruct (unavailable_device_blocked 13 linear_format_name usb_card dac_busy
              (hd scenario_row
                 (scan_device 13 linear_format_name usb_card dac_busy))
              (Some scenario_row) dmix_stream_default dismissed_world)
    as [_ [_ Hcapture]]; [left; reflexivity | left; discriminate|].
  split; [exact Hrun | apply (Hcapture scenario_row); reflexivity].
Defined.

(** * The stream controls *)

(** What the handlers keep true of the controls. *)
Lemma act_keeps_lock (g : gui) (a : user_action) :
  streamDefault_sensitive g
  = streamSwitch (asconfigControls g)
    && ((playbackInterface (asconfigControls g) =? 0)%Z
        || (playbackInterface (asconfigControls g) =? 1)%Z) ->
  (streamDefault (asconfigControls g) = true ->
   streamDefault_sensitive g = true) ->
  streamDefault_sensitive (act g a)
  = streamSwitch (asconfigControls (act g a))
    && ((playbackInterface (asconfigControls (act g a)) =? 0)%Z
        || (playbackInterface (asconfigControls (act g a)) =? 1)%Z)
  /\ (streamDefault (asconfigControls (act g a)) = true ->
      streamDefault_sensitive (act g a) = true).
Proof.
  destruct g as [[pi ci rs sw sd] sens]. simpl. intros Hsens Hlock.
  destruct a as [i | i | i | state |];
    unfold act, playbackInterfaceChanged, streamSwitchState; simpl.
  - destruct (i =? pi)%Z; simpl; [split; assumption|].
    destruct sw; simpl; [|split; [reflexivity | discriminate]].
    destruct (i =? 0)%Z eqn:E0; simpl; rewrite ?E0;
      [split; reflexivity|].
    destruct (i =? 1)%Z eqn:E1; simpl; rewrite ?E0, ?E1; split;
      try reflexivity; discriminate.
  - split; assumption.
  - split; assumption.
  - destruct state; simpl; [|split; [reflexivity | discriminate]].
    destruct (pi =? 0)%Z eqn:E0; simpl; rewrite ?E0;
      [split; reflexivity|].
    destruct (pi =? 1)%Z eqn:E1; simpl; rewrite ?E0, ?E1; split;
      try reflexivity; discriminate.
  - destruct sens; simpl; [|split; assumption].
    split; [assumption | reflexivity].
Qed.

(** The lock holds after any sequence of actions, from any state in
    which it holds. *)
Lemma fold_act_keeps_lock (actions : list user_action) :
  forall g,
    streamDefault_sensitive g
    = streamSwitch (asconfigControls g)
      && ((playbackInterface (asconfigControls g) =? 0)%Z
          || (playbackInterface (asconfigControls g) =? 1)%Z) ->
    (streamDefault (asconfigControls g) = true ->
     streamDefault_sensitive g = true) ->
    streamDefault_sensitive (fold_left act actions g)
    = streamSwitch (asconfigControls (fold_left act actions g))
      && ((playbackInterface (asconfigControls (fold_left act actions g))
           =? 0)%Z
          || (playbackInterface (asconfigControls (fold_left act actions g))
              =? 1)%Z)
    /\ (streamDefault (asconfigControls (fold_left act actions g)) = true ->
        streamDefault_sensitive (fold_left act actions g) = true).
Proof.
  induction actions as [|a actions IH]; intros g Hs Hl; simpl.
  - split; assumption.
  - destruct (act_keeps_lock g a Hs Hl) as [Hs' Hl']. exact (IH _ Hs' Hl').
Qed.

Lemma ticked_means_unlocked (actions : list user_action) :
  streamDefault (asconfigControls (fold_left act actions addControls)) = true ->
  streamSwitch (asconfigControls (fold_left act actions addControls)) = true
  /\ (playbackInterface (asconfigControls (fold_left act actions addControls))
      = 0%Z
      \/ playbackInterface (asconfigControls (fold_left act actions addControls))
         = 1%Z).
Proof.
  destruct (fold_act_keeps_lock actions addControls) as [Hs Hl];
    [reflexivity | discriminate|].
  intros Hd. specialize (Hl Hd). rewrite Hs in Hl.
  apply andb_true_iff in Hl as [Hsw Hpi]. split; [exact Hsw|].
  apply orb_true_iff in Hpi as [H | H]; apply Z.eqb_eq in H; tauto.
Qed.

(** X22: however the user works the controls after the window opens, the
    stream-is-default check button is sensitive exactly while the stream
    switch is on and the playback interface is hw or plug, and it is never
    ticked while it is locked: a ticked button means the switch is on and
    the interface is hw or plug. *)
Theorem streamDefault_locked (actions : list user_action) :
  streamDefault_sensitive (fold_left act actions addControls)
  = streamSwitch (asconfigControls (fold_left act actions addControls))
    && ((playbackInterface (asconfigControls (fold_left act actions addControls))
         =? 0)%Z
        || (playbackInterface (asconfigControls (fold_left act actions addControls))
            =? 1)%Z)
  /\ (streamDefault (asconfigControls (fold_left act actions addControls)) = true ->
      streamSwitch (asconfigControls (fold_left act actions addControls)) = true
      /\ (playbackInterface (asconfigControls (fold_left act actions addControls))
          = 0%Z
          \/ playbackInterface (asconfigControls (fold_left act actions addControls))
             = 1%Z)).
Proof.
  split; [|apply ticked_means_unlocked].
  apply (fold_act_keeps_lock actions addControls); [reflexivity | discriminate].
Qed.

Lemma default_through_stream (p : row) (capture : option row)
    (c : ASCONFIG_CONTROLS) :
  (streamDefault c = true ->
   streamSwitch c = true
   /\ (playbackInterface c = 0%Z \/ playbackInterface c = 1%Z)) ->
  existsb
    (fun playbackPCM =>
       mem "stream"
         (route (length (written (write_asoundrc p capture c)))
            (written (write_asoundrc p capture c)) playbackPCM))
    (default_playback_refs (written (write_asoundrc p capture c)))
  = streamDefault c.
Proof.
  destruct c as [pi ci rs sw sd]. simpl. intros Hlock.
  destruct sd.
  - destruct (Hlock eq_refl) as [-> [-> | ->]]; unfold_setup; simpl;
      destruct capture as [q|]; split_ifs; reflexivity.
  - clear Hlock. unfold_setup. simpl.
    destruct capture as [q|]; split_ifs; reflexivity.
Qed.

(** X23: however the user worked the controls, an artifact saved then
    sends the default playback device through the stream stage exactly
    when the stream-is-default check button is ticked. *)
Theorem saved_default_through_stream (actions : list user_action)
    (v : ASCONFIG_DEVICE_VIEW) (w : world) :
  opened (save_clicked v (fold_left act actions addControls) w) = true ->
  existsb
    (fun playbackPCM =>
       mem "stream"
         (route
            (length (written (save_clicked v (fold_left act actions addControls) w)))
            (written (save_clicked v (fold_left act actions addControls) w))
            playbackPCM))
    (default_playback_refs
       (written (save_clicked v (fold_left act actions addControls) w)))
  = streamDefault (asconfigControls (fold_left act actions addControls)).
Proof.
  unfold save_clicked. intros Hopen.
  destruct (print_asoundrc_opened v _ w Hopen) as [p [_ [_ [Hw _]]]].
  rewrite Hw. apply default_through_stream.
  apply (ticked_means_unlocked actions).
Qed.

Lemma saved_default_through_stream_witness :
  existsb
    (fun playbackPCM =>
       mem "stream"
         (route
            (length
               (written
                  (save_clicked scenario_view
                     (fold_left act
                        [move_streamSwitch true; click_streamDefault]
                        addControls)
                     fresh_world)))
            (written
               (save_clicked scenario_view
                  (fold_left act [move_streamSwitch true; click_streamDefault]
                     addControls)
                  fresh_world))
            playbackPCM))
    (default_playback_refs
       (written
          (save_clicked scenario_view
             (fold_left act [move_streamSwitch true; click_streamDefault]
                addControls)
             fresh_world)))
  = true.
Proof.
  apply (saved_default_through_stream
           [move_streamSwitch true; click_streamDefault] scenario_view
           fresh_world).
  reflexivity.
Defined.

(** * What the generator reads of the capture row *)

(** X24: of the selected capture row the generator reads the card, the
    device and the three negotiated defaults, and nothing else: two
    capture rows that agree on these give the same run.  In particular
    the in-use column of the capture row is not looked at: a capture
    device marked busy or failed is written into the artifact like a free
    one. *)
Theorem capture_row_columns (playback : option row) (q q' : row)
    (c : ASCONFIG_CONTROLS) (w : world) :
  COLUMN_CARD q = COLUMN_CARD q' ->
  COLUMN_DEVICE q = COLUMN_DEVICE q' ->
  COLUMN_DEFAULT_RATE q = COLUMN_DEFAULT_RATE q' ->
  COLUMN_DEFAULT_FORMAT q = COLUMN_DEFAULT_FORMAT q' ->
  COLUMN_DEFAULT_CHANNELS q = COLUMN_DEFAULT_CHANNELS q' ->
  print_asoundrc (mk_view playback (Some q)) c w
  = print_asoundrc (mk_view playback (Some q')) c w.
Proof.
  intros Hcard Hdev Hrate Hfmt Hch.
  assert (E : capture_setup (Some q) c = capture_setup (Some q') c).
  { unfold capture_setup, defaultRate_of, defaultFormat_of, defaultChannels_of.
    now rewrite Hcard, Hdev, Hrate, Hfmt, Hch. }
  unfold print_asoundrc, write_asoundrc. cbn [captureTreeview playbackTreeview].
  now rewrite E.
Qed.

Lemma capture_row_columns_witness :
  print_asoundrc (mk_view (Some scenario_row) (Some scenario_row))
    initial_controls fresh_world
  = print_asoundrc (mk_view (Some scenario_row) (Some busy_row))
      initial_controls fresh_world
  /\ In (capture_device "capture" 0%N 0%N)
        (written (print_asoundrc (mk_view (Some scenario_row) (Some busy_row))
                    initial_controls fresh_world)).
Proof.
  split.
  - apply (capture_row_columns (Some scenario_row) scenario_row busy_row
             initial_controls fresh_world); reflexivity.
  - simpl. tauto.
Defined.

(** * The array of sample formats *)

(** The loop stores the names of the formats of the mask at consecutive
    indices. *)
Lemma store_sample_formats_spec (name : snd_pcm_format_t -> option string)
    (fmask : snd_pcm_format_t -> bool) (fmts : list snd_pcm_format_t) :
  forall i,
    store_sample_formats name fmask fmts i
    = (i + length (filter fmask fmts),
       combine (seq i (length (filter fmask fmts)))
         (map name (filter fmask fmts))).
Proof.
  induction fmts as [|fmt rest IH]; intros i; simpl.
  - now rewrite Nat.add_0_r.
  - destruct (fmask fmt); simpl.
    + rewrite IH. f_equal. lia.
    + apply IH.
Qed.

Lemma getSampleFormats_stores_spec (LAST : nat)
    (name : snd_pcm_format_t -> option string)
    (fmask : snd_pcm_format_t -> bool) :
  getSampleFormats_stores LAST name fmask
  = (combine (seq 0 (length (filter fmask (seq 0 (S LAST)))))
       (map name (filter fmask (seq 0 (S LAST))))
     ++ [(length (filter fmask (seq 0 (S LAST))), None)])%list.
Proof.
  unfold getSampleFormats_stores. rewrite store_sample_formats_spec.
  reflexivity.
Qed.


Lemma map_snd_combine_seq {A : Type} (l : list A) (i : nat) :
  map snd (combine (seq i (length l)) l) = l.
Proof.
  revert i. induction l as [|x l IH]; intros i; simpl; [reflexivity|].
  now rewrite IH.
Qed.


Lemma until_NULL_app (names : list string) (rest : list (option string)) :
  until_NULL (map Some names ++ rest) = (names ++ until_NULL rest)%list.
Proof.
  induction names as [|x names IH]; simpl; [reflexivity | now rewrite IH].
Qed.

(** X14: what a reader of the array finds, from index 0 up to the first
    NULL, is the names of the formats of the mask in increasing order as
    far as they have names: all of them, the list of getSampleFormats,
    when every format of the mask has a name, and only those below the
    lowest format of the mask whose name is NULL when there is one. *)
Theorem sample_formats_read_names (LAST : nat)
    (name : snd_pcm_format_t -> option string)
    (named : snd_pcm_format_t -> string)
    (fmask : snd_pcm_format_t -> bool) (n : nat) :
  n <= S LAST ->
  (forall g, g < n -> fmask g = true -> name g = Some (named g)) ->
  n = S LAST \/ (fmask n = true /\ name n = None) ->
  sample_formats_read LAST name fmask = map named (filter fmask (seq 0 n))
  /\ (n = S LAST ->
      sample_formats_read LAST name fmask = getSampleFormats LAST named fmask).
Proof.
  intros Hn Hnamed Hstop.
  assert (Hread : sample_formats_read LAST name fmask
                  = map named (filter fmask (seq 0 n))).
  { unfold sample_formats_read. rewrite getSampleFormats_stores_spec.
    unfold snd_pcm_format_t in *.
    rewrite map_app, <- (length_map name (filter fmask (seq 0 (S LAST)))),
      map_snd_combine_seq.
    replace (S LAST) with (n + (S LAST - n)) by lia.
    rewrite seq_app, filter_app, map_app, <- app_assoc.
    assert (Hlow : map name (filter fmask (seq 0 n))
                   = map Some (map named (filter fmask (seq 0 n)))).
    { rewrite map_map. apply map_ext_in. intros g Hg.
      apply filter_In in Hg as [Hseq Hm]. apply in_seq in Hseq.
      apply Hnamed; [lia | assumption]. }
    rewrite Hlow, until_NULL_app.
    destruct Hstop as [-> | [Hm Hnull]].
    - rewrite Nat.sub_diag. simpl. now rewrite app_nil_r.
    - destruct (S LAST - n) as [|m] eqn:Hrest.
      + simpl. now rewrite app_nil_r.
      + simpl. rewrite Hm. simpl. rewrite Hnull. simpl. now rewrite app_nil_r. }
  split; [exact Hread|]. intros ->. exact Hread.
Qed.

Lemma sample_formats_read_names_witness :
  sample_formats_read 20 linear_format_name_or_NULL
    (fun f => Nat.leb 10 f && Nat.leb f 16)
  = ["S32_LE"; "S32_BE"; "U32_LE"; "U32_BE"]
  /\ sample_formats_read 13 linear_format_name_or_NULL
       (fun f => Nat.leb 10 f && Nat.leb f 16)
     = getSampleFormats 13 linear_format_name
         (fun f => Nat.leb 10 f && Nat.leb f 16).
Proof.
  split.
  - apply (sample_formats_read_names 20 linear_format_name_or_NULL
             linear_format_name (fun f => Nat.leb 10 f && Nat.leb f 16) 14).
    + lia.
    + intros g Hg _.
      do 14 (destruct g as [|g]; [reflexivity|]). lia.
    + right. split; reflexivity.
  - apply (sample_formats_read_names 13 linear_format_name_or_NULL
             linear_format_name (fun f => Nat.leb 10 f && Nat.leb f 16) 14).
    + lia.
    + intros g Hg _.
      do 14 (destruct g as [|g]; [reflexivity|]). lia.
    + left. reflexivity.
    + reflexivity.
Defined.
